(** * orbitfit_3d: the joint likelihood evaluator, the initial chain state
    and the chain output of the orbit-fitting driver

    A shallow embedding of [orbitfit_3d.py].  Python floats are IEEE
    binary64 numbers ([PrimFloat.float]); Python integers are [Z]; array
    sizes and indices are [nat].  Exceptions and [exit()] are outcomes of a
    small state-and-error monad; the file system and the observable actions
    of the script are its state. *)

From Stdlib Require Import ZArith Lia Bool Ascii.
From Stdlib Require Import Floats.PrimFloat Floats.SpecFloat Floats.FloatOps.
From stdpp Require Import gmap strings list fin_maps pretty.

Set Warnings "-inexact-float".
Local Open Scope Z_scope.

(** ** Python outcomes *)

Inductive exn : Type :=
  | UnboundLocalError (name : string)
  | AttributeError (attr : string)
  | IndexError
  | ValueError
  | OSError (path : string)
  | AssertionError (message : string)
  | LibraryError (origin : string).

Inductive outcome (A : Type) : Type :=
  | Ok (a : A)
  | Raise (e : exn)
  | SystemExit.
Arguments Ok {A} a.
Arguments Raise {A} e.
Arguments SystemExit {A}.

(** A computation over a state [S] that returns, raises or exits. *)
Definition St (S A : Type) : Type := S -> outcome A * S.

Global Instance St_ret {S} : MRet (St S) := fun A a s => (Ok a, s).
Global Instance St_bind {S} : MBind (St S) := fun A B f m s =>
  match m s with
  | (Ok a, s') => f a s'
  | (Raise e, s') => (Raise e, s')
  | (SystemExit, s') => (SystemExit, s')
  end.

Global Instance outcome_ret : MRet outcome := fun A a => Ok a.
Global Instance outcome_bind : MBind outcome := fun A B f m =>
  match m with
  | Ok a => f a
  | Raise e => Raise e
  | SystemExit => SystemExit
  end.

Definition raise {S A} (e : exn) : St S A := fun s => (Raise e, s).
Definition lift {S A} (o : outcome A) : St S A := fun s => (o, s).

(** [for x in l: s = body(x, s)] *)
Fixpoint for_each {S X A} (l : list X) (body : X -> A -> St S A) (a : A) : St S A :=
  match l with
  | [] => mret a
  | x :: l' => a' ← body x a; for_each l' body a'
  end.

(** Python's [range(n)] for an integer [n]: empty when [n <= 0]. *)
Definition range (n : Z) : list Z := Z.of_nat <$> seq 0 (Z.to_nat n).

(** ** The [orbit] module, as far as the driver uses it *)

(** [orbit.Params(theta, i, nplanets)]: the object is represented by the
    arguments of its constructor; whatever the collaborators read from it
    is a function of these. *)
Record Params : Type := mkParams {
  par : list float;
  iplanet : Z;
  of_nplanets : Z }.

(** What the driver reads from [orbit.calcL(..., chisq_resids=True)]. *)
Record Info : Type := mkInfo {
  plx_best : float;
  pmra_best : float;
  pmdec_best : float;
  chisq_sep : float;
  chisq_PA : float;
  chisq_H : float;
  chisq_HG : float;
  chisq_G : float }.

(** The functions of [orbit] on the observation set [data], which is fixed
    for a run.  The scratch [Model] is mutated in place by the [calc_]
    functions; here each returns the new contents.  Every function is
    taken to return normally and to depend on its arguments only. *)
Record orbit_module : Type := {
  Model : Type;
  Model_new : Model;
  lnprior : Params -> float;
  calc_EA_RPP : Params -> Model -> Model;
  calc_RV : Params -> Model -> Model;
  calc_offsets : Params -> Model -> Z -> Model;
  calc_PMs_epoch_astrometry : Model -> Model;
  calc_PMs_no_epoch_astrometry : Model -> Model;
  calcL : Params -> Model -> float;
  calcL_chisq_resids : Params -> Model -> Info }.

(** The calls of one evaluation, in the order they are made. *)
Inductive orbit_call : Type :=
  | call_Model
  | call_free
  | call_Params (theta : list float) (i nplanets : Z)
  | call_lnprior (params : Params)
  | call_calc_EA_RPP (params : Params)
  | call_calc_RV (params : Params)
  | call_calc_offsets (params : Params) (i : Z)
  | call_calc_PMs_epoch_astrometry
  | call_calc_PMs_no_epoch_astrometry
  | call_calcL (params : Params) (chisq_resids : bool).

Definition Calls (A : Type) : Type := St (list orbit_call) A.

Definition called {A} (c : orbit_call) (a : A) : Calls A :=
  fun calls => (Ok a, calls ++ [c]).

(** ** Command line *)

Record Args : Type := mkArgs {
  nstep : Z;
  nthreads : Z;
  use_epoch_astrometry : bool;
  output_dir : string;
  ntemps : Z;
  nwalkers : Z;
  nplanets : Z;
  start_file : option string }.

(** ** [lnprob] *)

Definition np_isfinite (x : float) : bool := PrimFloat.is_finite x.

(** [lnprob] returns a float or the record of [calcL]. *)
Inductive pyval : Type :=
  | PyFloat (x : float)
  | PyInfo (res : Info).

(** Leaving the planet loop: by [return], or by running off its end. *)
Inductive flow (R A : Type) : Type :=
  | Return (r : R)
  | Next (a : A).
Arguments Return {R A} r.
Arguments Next {R A} a.

(** Reading a local variable that may not have been assigned. *)
Definition load_local {S A} (name : string) (v : option A) : St S A :=
  match v with
  | Some a => mret a
  | None => raise (UnboundLocalError name)
  end.

Section Evaluator.
Variable orbit : orbit_module.
Variable args : Args.

(** The loop [for i in range(nplanets)] of [lnprob]; the locals [params]
    and [model] are threaded through. *)
Fixpoint lnprob_planets (theta : list float) (planets : list Z)
    (params : option Params) (model : Model orbit)
    : Calls (flow pyval (option Params * Model orbit)) :=
  match planets with
  | [] => mret (Next (params, model))
  | i :: planets' =>
      params ← called (call_Params theta i (nplanets args))
                      (mkParams theta i (nplanets args));
      lp ← called (call_lnprior params) (lnprior orbit params);
      if negb (np_isfinite lp) then
        _ ← called call_free tt;
        mret (Return (PyFloat neg_infinity))
      else
        model ← called (call_calc_EA_RPP params) (calc_EA_RPP orbit params model);
        model ← called (call_calc_RV params) (calc_RV orbit params model);
        model ← called (call_calc_offsets params i) (calc_offsets orbit params model i);
        lnprob_planets theta planets' (Some params) model
  end.

Definition lnprob (theta : list float) (returninfo : bool) : Calls pyval :=
  model ← called call_Model (Model_new orbit);
  r ← lnprob_planets theta (range (nplanets args)) None model;
  match r with
  | Return v => mret v
  | Next (params, model) =>
      model ← (if use_epoch_astrometry args
               then called call_calc_PMs_epoch_astrometry
                           (calc_PMs_epoch_astrometry orbit model)
               else called call_calc_PMs_no_epoch_astrometry
                           (calc_PMs_no_epoch_astrometry orbit model));
      if returninfo then
        params ← load_local "params" params;
        res ← called (call_calcL params true) (calcL_chisq_resids orbit params model);
        mret (PyInfo res)
      else
        params ← load_local "params" params;
        lp ← called (call_lnprior params) (lnprior orbit params);
        l ← called (call_calcL params false) (calcL orbit params model);
        mret (PyFloat (lp + l)%float)
  end.

Definition return_one (theta : list float) : float := 1%float.

End Evaluator.

(** ** numpy arrays *)

(** An array carries its shape; [data3] is nested in C order. *)
Record ndarray2 : Type := mkArray2 {
  shape2 : nat * nat;
  data2 : list (list float) }.

Record ndarray3 : Type := mkArray3 {
  shape3 : nat * nat * nat;
  data3 : list (list (list float)) }.

Definition wf_data (d0 d1 d2 : nat) (data : list (list (list float))) : Prop :=
  length data = d0 /\
  Forall (fun plane => length plane = d1 /\
                       Forall (fun row : list float => length row = d2) plane) data.

Definition wf_array3 (a : ndarray3) : Prop :=
  let '(d0, d1, d2) := shape3 a in wf_data d0 d1 d2 (data3 a).

(** The element types of the arrays that the driver reads and writes. *)
Inductive dtype : Type := float32 | float64.

(** [np.float32(x)]: the binary32 number nearest to [x], ties to even, with
    its overflow to infinity and its subnormals; it is held as the binary64
    number of the same value. *)
Definition np_float32 (x : float) : float :=
  SF2Prim (match Prim2SF x with
           | S754_finite s m e => binary_round 24 128 s m e
           | sf => sf
           end).

(** The quotient that [a /= b] stores in an array of element type [dt]:
    numpy divides the elements of a float32 array in single precision, and
    the binary32 quotient of two binary32 numbers is their binary64
    quotient rounded once more. *)
Definition np_true_divide (dt : dtype) (x y : float) : float :=
  match dt with
  | float64 => (x / y)%float
  | float32 => np_float32 (x / y)%float
  end.

Definition map3 (f : float -> float) (a : ndarray3) : ndarray3 :=
  mkArray3 (shape3 a) (map (map (map f)) (data3 a)).

Definition map2 (f : float -> float) (a : ndarray2) : ndarray2 :=
  mkArray2 (shape2 a) (map (map f) (data2 a)).

(** [np.ones(shape)] and [np.zeros(shape)]; a negative dimension is a
    ValueError. *)
Definition np_full (v : float) (d0 d1 d2 : Z) : outcome ndarray3 :=
  if (d0 <? 0) || (d1 <? 0) || (d2 <? 0) then Raise ValueError
  else Ok (mkArray3 (Z.to_nat d0, Z.to_nat d1, Z.to_nat d2)
             (replicate (Z.to_nat d0)
                (replicate (Z.to_nat d1) (replicate (Z.to_nat d2) v)))).

Definition np_ones := np_full 1%float.
Definition np_zeros := np_full 0%float.

(** [a *= np.asarray(v)] for a one-dimensional [v]: broadcast along the
    last axis. *)
Definition imul_broadcast (a : ndarray3) (v : list float) : outcome ndarray3 :=
  let '(_, _, d2) := shape3 a in
  if decide (length v = d2) then
    Ok (mkArray3 (shape3 a) (map (map (fun row => zip_with PrimFloat.mul row v)) (data3 a)))
  else match v with
       | [x] => Ok (map3 (fun y => (y * x)%float) a)
       | _ => Raise ValueError
       end.

(** [a *= b] for arrays of one shape. *)
Definition imul3 (a b : ndarray3) : outcome ndarray3 :=
  if decide (shape3 a = shape3 b) then
    Ok (mkArray3 (shape3 a)
          (zip_with (zip_with (zip_with PrimFloat.mul)) (data3 a) (data3 b)))
  else Raise ValueError.

(** [k] consecutive pieces of [n] elements. *)
Fixpoint chunks {A} (n k : nat) (l : list A) : list (list A) :=
  match k with
  | O => []
  | S k' => take n l :: chunks n k' (drop n l)
  end.

(** [np.asarray(l).reshape(shape)] *)
Definition reshape3 (l : list float) (shape : nat * nat * nat) : outcome ndarray3 :=
  let '(d0, d1, d2) := shape in
  if decide (length l = (d0 * d1 * d2)%nat) then
    Ok (mkArray3 shape (chunks d1 d0 (chunks d2 (d0 * d1) l)))
  else Raise ValueError.

(** [a[:, :, dst] = a[:, :, src]] *)
Definition assign_column (a : ndarray3) (dst src : nat) : outcome ndarray3 :=
  let '(_, _, d2) := shape3 a in
  if (src <? d2)%nat && (dst <? d2)%nat then
    Ok (mkArray3 (shape3 a)
          (map (map (fun row : list float =>
                       match row !! src with
                       | Some v => <[dst := v]> row
                       | None => row
                       end)) (data3 a)))
  else Raise IndexError.

(** [a[:, :, dst] /= a[:, :, src]] in an array of element type [dt] *)
Definition idiv_column (dt : dtype) (a : ndarray3) (dst src : nat) : outcome ndarray3 :=
  let '(_, _, d2) := shape3 a in
  if (dst <? d2)%nat && (src <? d2)%nat then
    Ok (mkArray3 (shape3 a)
          (map (map (fun row : list float =>
                       match row !! dst, row !! src with
                       | Some x, Some v => <[dst := np_true_divide dt x v]> row
                       | _, _ => row
                       end)) (data3 a)))
  else Raise IndexError.

(** The number of elements selected by the slice [:stop] of an axis of
    length [len]; a negative [stop] counts from the end. *)
Definition slice_stop (stop : Z) (len : nat) : nat :=
  Z.to_nat (Z.min (Z.of_nat len)
                  (if stop <? 0 then Z.max 0 (Z.of_nat len + stop) else stop)).

(** [a[:stop0, :, :stop2]] *)
Definition slice3 (a : ndarray3) (stop0 stop2 : Z) : ndarray3 :=
  let '(d0, d1, d2) := shape3 a in
  mkArray3 (slice_stop stop0 d0, d1, slice_stop stop2 d2)
           (map (map (take (slice_stop stop2 d2))) (take (slice_stop stop0 d0) (data3 a))).

(** [a[:, 0, 0].size], [a[0, :, 0].size] and [a[0, 0, :].size]: the
    integer indices must be in range. *)
Definition size_axis0 (a : ndarray3) : outcome nat :=
  let '(d0, d1, d2) := shape3 a in
  if (0 <? d1)%nat && (0 <? d2)%nat then Ok d0 else Raise IndexError.
Definition size_axis1 (a : ndarray3) : outcome nat :=
  let '(d0, d1, d2) := shape3 a in
  if (0 <? d0)%nat && (0 <? d2)%nat then Ok d1 else Raise IndexError.
Definition size_axis2 (a : ndarray3) : outcome nat :=
  let '(d0, d1, d2) := shape3 a in
  if (0 <? d0)%nat && (0 <? d1)%nat then Ok d2 else Raise IndexError.

(** [a[i, j]]: a row of the array. *)
Definition row_at (a : ndarray3) (i j : nat) : outcome (list float) :=
  match data3 a !! i ≫= (fun plane => plane !! j) with
  | Some row => Ok row
  | None => Raise IndexError
  end.

(** [a[i, j] = row] *)
Definition set_row (a : ndarray3) (i j : nat) (row : list float) : ndarray3 :=
  mkArray3 (shape3 a) (alter (fun plane => <[j := row]> plane) i (data3 a)).

(** ** FITS files and the file system *)

Inductive ndarray : Type :=
  | Array2 (a : ndarray2)
  | Array3 (a : ndarray3).

Record hdu : Type := PrimaryHDU {
  hdu_dtype : dtype;
  hdu_data : ndarray }.

Inductive fsentry : Type :=
  | FitsFile (hdus : list hdu)
  | OtherFile (bytes : string)
  | Directory.

(** What the script does that can be observed from outside, in order. *)
Inductive event : Type :=
  | ev_load_data (epoch_astrometry : bool)
  | ev_PTSampler (ntemps nwalkers ndim : nat) (threads : Z)
  | ev_run_mcmc (par0 : ndarray3) (nstep thin : Z)
  | ev_print_total_time
  | ev_print_acceptance (fractions : list float)
  | ev_lnprob (theta : list float) (returninfo : bool)
  | ev_print_writing (filename : string)
  | ev_writeto (filename : string).

Record world : Type := mkWorld {
  fs : gmap string fsentry;
  trace : list event }.

Definition Script (A : Type) : Type := St world A.

Definition emit (e : event) : Script unit :=
  fun w => (Ok tt, mkWorld (fs w) (trace w ++ [e])).

Definition os_path_isfile (files : gmap string fsentry) (path : string) : bool :=
  match files !! path with
  | Some (FitsFile _) | Some (OtherFile _) => true
  | Some Directory | None => false
  end.

(** [posixpath.join(a, b)] *)
Definition os_path_join (a b : string) : string :=
  match b with
  | String "/" _ => b
  | _ => if decide (a = "") then b
         else match last (String.list_ascii_of_string a) with
              | Some "/"%char => a +:+ b
              | _ => a +:+ "/" +:+ b
              end
  end.

(** ['%d' % z] and ['%03d' % z] *)
Definition fmt_d (z : Z) : string := pretty z.
Definition fmt_03d (z : Z) : string :=
  if z <? 0 then
    let s := pretty (- z) in
    "-" +:+ String.string_of_list_ascii (replicate (2 - String.length s) "0"%char) +:+ s
  else
    let s := pretty z in
    String.string_of_list_ascii (replicate (3 - String.length s) "0"%char) +:+ s.

(** [fits.open(path)[0].data]: the array of the first HDU, of the element
    type it is stored with. *)
Definition fits_open_data (path : string) : Script (dtype * ndarray) :=
  fun w => (match fs w !! path with
            | Some (FitsFile (h :: _)) => Ok (hdu_dtype h, hdu_data h)
            | Some (FitsFile []) => Raise IndexError
            | _ => Raise (OSError path)
            end, w).

(** [out.writeto(filename, overwrite=False)] *)
Definition writeto (out : list hdu) (filename : string) : Script unit :=
  fun w => match fs w !! filename with
           | Some _ => (Raise (OSError filename), w)
           | None => (Ok tt, mkWorld (<[filename := FitsFile out]> (fs w))
                                     (trace w ++ [ev_writeto filename]))
           end.

(** ** Libraries and configuration *)

(** What the driver reads from [sample0] after [run_mcmc]; the first axis
    of each field is the temperature. *)
Record PTSampler : Type := mkPTSampler {
  chain : list ndarray3;
  lnprobability : list ndarray2;
  acceptance_fraction : list (list float) }.

(** The calls into [config], [numpy.random], [orbit], [htof] and [emcee]
    whose answers the driver depends on.  Loading the data, constructing
    the sampler and running it are three calls, and each can raise. *)
Record libraries : Type := {
  HipID : Z;
  np_random_rand : nat -> list float;
  np_power : float -> float -> float;
  (** lines 87 to 110: [orbit.Data], and with [--use-epoch-astrometry] the
      three [Astrometry] fitters and [orbit.Data] again *)
  load_data : bool -> outcome unit;
  (** the object that [emcee.PTSampler] constructs *)
  Sampler : Type;
  (** [emcee.PTSampler(ntemps, nwalkers, ndim, logl, logp, threads)] *)
  emcee_PTSampler : nat -> nat -> nat -> (list float -> outcome pyval) ->
                    (list float -> float) -> Z -> outcome Sampler;
  (** [sample0.run_mcmc(par0, nstep, thin)], and the fields of [sample0]
      afterwards *)
  emcee_run_mcmc : Sampler -> ndarray3 -> Z -> Z -> outcome PTSampler }.

(** ** The initial chain state *)

Definition mpri : float := 1%float.
Definition jit : float := 0.5%float.
Definition sau : float := 10%float.
Definition esino : float := 0.5%float.
Definition ecoso : float := 0.5%float.
Definition inc : float := 1%float.
Definition asc : float := 1%float.
Definition lam : float := 1%float.
Definition msec : float := 0.1%float.

Definition init_guess (nplanets : Z) : list float :=
  foldl (fun init _ => init ++ [msec; sau; esino; ecoso; inc; asc; lam])
        [jit; mpri] (range nplanets).

Section Driver.
Variable lib : libraries.
Variable orbit : orbit_module.
Variable args : Args.

(** The branch [args.start_file is None]. *)
Definition par0_fresh : outcome ndarray3 :=
  par0 ← np_ones (ntemps args) 100 (2 + 7 * nplanets args);
  par0 ← imul_broadcast par0 (init_guess (nplanets args));
  let '(d0, d1, d2) := shape3 par0 in
  r ← reshape3 (np_random_rand lib (d0 * d1 * d2)%nat) (shape3 par0);
  imul3 par0 (map3 (fun x => np_power lib 2%float (x - 0.5)%float) r).

(** The branch that reads the starting positions, on the array read from
    the file and its element type. *)
Definition par0_resume (dt : dtype) (data : ndarray) : outcome ndarray3 :=
  match data with
  | Array2 _ => Raise IndexError
  | Array3 par0 =>
      par0 ← assign_column par0 8 9;
      par0 ← assign_column par0 9 10;
      par0 ← idiv_column dt par0 0 9;
      mret (slice3 par0 (ntemps args) (-2))
  end.

(** Lines 45 to 81: [par0], then [ntemps], [nwalkers] and [ndim]. *)
Definition initial_state : Script (ndarray3 * (nat * nat * nat)) :=
  par0 ← match start_file args with
          | None => lift par0_fresh
          | Some path => data ← fits_open_data path;
                         lift (par0_resume data.1 data.2)
          end;
  ntemps ← lift (size_axis0 par0);
  nwalkers ← lift (size_axis1 par0);
  ndim ← lift (size_axis2 par0);
  mret (par0, (ntemps, nwalkers, ndim)).

(** [lnprob] as the sampler calls it, with [returninfo] left at its
    default. *)
Definition logl (theta : list float) : outcome pyval :=
  fst (lnprob orbit args theta false []).

(** Lines 87 to 110 and 150 to 155: each call is entered in the trace when
    it is made, and the script goes on to the next one only when it
    returns. *)
Definition run_sampler (st : ndarray3 * (nat * nat * nat)) : Script PTSampler :=
  let '(par0, (ntemps, nwalkers, ndim)) := st in
  _ ← emit (ev_load_data (use_epoch_astrometry args));
  _ ← lift (load_data lib (use_epoch_astrometry args));
  _ ← emit (ev_PTSampler ntemps nwalkers ndim (nthreads args));
  sample0 ← lift (emcee_PTSampler lib ntemps nwalkers ndim logl return_one
                    (nthreads args));
  _ ← emit (ev_run_mcmc par0 (nstep args) 50);
  lift (emcee_run_mcmc lib sample0 par0 (nstep args) 50).

Definition getattr (name : string) (field : Info -> float) (res : pyval)
    : outcome float :=
  match res with
  | PyInfo r => Ok (field r)
  | PyFloat _ => Raise (AttributeError name)
  end.

(** The list assigned to [parfit[i, j]]. *)
Definition parfit_row (res : pyval) : outcome (list float) :=
  a ← getattr "plx_best" plx_best res;
  b ← getattr "pmra_best" pmra_best res;
  c ← getattr "pmdec_best" pmdec_best res;
  d ← getattr "chisq_sep" chisq_sep res;
  e ← getattr "chisq_PA" chisq_PA res;
  f ← getattr "chisq_H" chisq_H res;
  g ← getattr "chisq_HG" chisq_HG res;
  h ← getattr "chisq_G" chisq_G res;
  mret [a; b; c; d; e; f; g; h].

(** [sample0.chain[0]] and [sample0.lnprobability[0]] *)
Definition coldest {A} (l : list A) : outcome A :=
  match l !! 0%nat with
  | Some a => Ok a
  | None => Raise IndexError
  end.

(** The body of the loops of lines 162 to 167. *)
Definition parfit_step (sample0 : PTSampler) (i j : nat) (parfit : ndarray3)
    : Script ndarray3 :=
  chain0 ← lift (coldest (chain sample0));
  theta ← lift (row_at chain0 i j);
  _ ← emit (ev_lnprob theta true);
  res ← lift (fst (lnprob orbit args theta true []));
  row ← lift (parfit_row res);
  mret (set_row parfit i j row).

Definition filename (i : Z) : string :=
  os_path_join (output_dir args)
               ("HIP" +:+ fmt_d (HipID lib) +:+ "_chain" +:+ fmt_03d i +:+ ".fits").

(** The body of the loop of lines 172 to 177. *)
Definition write_step (out : list hdu) (i : Z) (_ : unit) : Script unit :=
  fun w =>
    if negb (os_path_isfile (fs w) (filename i)) then
      (_ ← emit (ev_print_writing (filename i));
       _ ← writeto out (filename i);
       lift SystemExit) w
    else (Ok tt, w).

Definition write_loop (out : list hdu) : Script unit :=
  for_each (range 1000) (write_step out) tt.

(** Lines 157 to 177. *)
Definition write_output (sample0 : PTSampler) : Script unit :=
  _ ← emit ev_print_total_time;
  fractions ← lift (coldest (acceptance_fraction sample0));
  _ ← emit (ev_print_acceptance fractions);
  lnprobability0 ← lift (coldest (lnprobability sample0));
  let shape := shape2 lnprobability0 in
  parfit ← lift (np_zeros (Z.of_nat shape.1) (Z.of_nat shape.2) 8);
  parfit ← for_each (seq 0 shape.1) (fun i parfit =>
              for_each (seq 0 shape.2) (fun j parfit =>
                parfit_step sample0 i j parfit) parfit) parfit;
  chain0 ← lift (coldest (chain sample0));
  lnprobability0 ← lift (coldest (lnprobability sample0));
  let out := [PrimaryHDU float32 (Array3 (map3 np_float32 chain0));
              PrimaryHDU float32 (Array2 (map2 np_float32 lnprobability0));
              PrimaryHDU float32 (Array3 (map3 np_float32 parfit))] in
  write_loop out.

Definition main : Script unit :=
  st ← initial_state;
  sample0 ← run_sampler st;
  write_output sample0.

End Driver.

(** ** The accumulated model, as the specification words it *)

(** The orbital model of one planet, added to the scratch model. *)
Definition add_planet (orbit : orbit_module) (theta : list float) (P : Z)
    (model : Model orbit) (i : Z) : Model orbit :=
  let params := mkParams theta i P in
  calc_offsets orbit params (calc_RV orbit params (calc_EA_RPP orbit params model)) i.

(** The proper-motion model, selected by the command-line flag. *)
Definition calc_PMs (orbit : orbit_module) (args : Args) (model : Model orbit)
    : Model orbit :=
  if use_epoch_astrometry args then calc_PMs_epoch_astrometry orbit model
  else calc_PMs_no_epoch_astrometry orbit model.

Definition call_calc_PMs (args : Args) : orbit_call :=
  if use_epoch_astrometry args then call_calc_PMs_epoch_astrometry
  else call_calc_PMs_no_epoch_astrometry.

(** The value of the local [params] after the loop over [planets]. *)
Definition params_after (theta : list float) (P : Z) (params : option Params)
    (planets : list Z) : option Params :=
  foldl (fun _ i => Some (mkParams theta i P)) params planets.

(** Every planet's contribution, then the proper motions once. *)
Definition accumulated_model (orbit : orbit_module) (args : Args)
    (theta : list float) : Model orbit :=
  calc_PMs orbit args
    (foldl (add_planet orbit theta (nplanets args)) (Model_new orbit)
           (range (nplanets args))).

(** The calls made for a planet whose prior is finite, and for one whose
    prior is not. *)
Definition accepted_calls (theta : list float) (P i : Z) : list orbit_call :=
  let params := mkParams theta i P in
  [call_Params theta i P; call_lnprior params; call_calc_EA_RPP params;
   call_calc_RV params; call_calc_offsets params i].

Definition rejected_calls (theta : list float) (P i : Z) : list orbit_call :=
  [call_Params theta i P; call_lnprior (mkParams theta i P); call_free].

Definition prior_finite (orbit : orbit_module) (theta : list float) (P i : Z) : bool :=
  np_isfinite (lnprior orbit (mkParams theta i P)).

(** Whether a call belongs to the orbital model or to the proper motions. *)
Definition is_orbital_call (c : orbit_call) : bool :=
  match c with
  | call_calc_EA_RPP _ | call_calc_RV _ | call_calc_offsets _ _ => true
  | _ => false
  end.

Definition is_PM_call (c : orbit_call) : bool :=
  match c with
  | call_calc_PMs_epoch_astrometry | call_calc_PMs_no_epoch_astrometry => true
  | _ => false
  end.

(** The planet a call is about, if any. *)
Definition planet_of_call (c : orbit_call) : option Z :=
  match c with
  | call_Params _ i _ => Some i
  | call_lnprior p | call_calc_EA_RPP p | call_calc_RV p
  | call_calc_offsets p _ | call_calcL p _ => Some (iplanet p)
  | _ => None
  end.

(** ** A small instance to run the definitions on *)

Module Demo.

(** Modelled from the spec: the Parameter Decoder of section 4.1, which
    [orbit.Params] implements outside this file; field [k] of planet
    [iplanet] is at offset [2 + 7 * iplanet + k]. *)
Definition field (p : Params) (k : Z) : float :=
  nth (Z.to_nat (2 + 7 * iplanet p + k)) (par p) nan.

(** Modelled from the spec: the invariant of section 3, an eccentricity
    outside [0, 1) makes the prior negative infinity. *)
Definition lnprior_ecc (p : Params) : float :=
  let s := field p 2 in
  let c := field p 3 in
  if (s * s + c * c <? 1)%float then 0%float else neg_infinity.

(** The scratch model records which planets were added, and whether the
    proper motions were computed. *)
Definition orbit : orbit_module := {|
  Model := list string;
  Model_new := [];
  lnprior := lnprior_ecc;
  calc_EA_RPP p m := m ++ ["EA" +:+ pretty (iplanet p)];
  calc_RV p m := m ++ ["RV" +:+ pretty (iplanet p)];
  calc_offsets p m i := m ++ ["offsets" +:+ pretty i];
  calc_PMs_epoch_astrometry m := m ++ ["PMs epoch"];
  calc_PMs_no_epoch_astrometry m := m ++ ["PMs"];
  calcL p m := (-2.5)%float;
  calcL_chisq_resids p m :=
    mkInfo 1%float 2%float 3%float 4%float 5%float 6%float 7%float 8%float |}.

(** A second instance, in which the prior of a planet on a bound orbit is
    minus its mass, so that planets differ in their priors, and in which the
    first two diagnostics are read from the sample. *)
Definition lnprior_mass (p : Params) : float :=
  let s := field p 2 in
  let c := field p 3 in
  if (s * s + c * c <? 1)%float then (- field p 0)%float else neg_infinity.

Definition orbit_mass : orbit_module := {|
  Model := list string;
  Model_new := [];
  lnprior := lnprior_mass;
  calc_EA_RPP p m := m ++ ["EA" +:+ pretty (iplanet p)];
  calc_RV p m := m ++ ["RV" +:+ pretty (iplanet p)];
  calc_offsets p m i := m ++ ["offsets" +:+ pretty i];
  calc_PMs_epoch_astrometry m := m ++ ["PMs epoch"];
  calc_PMs_no_epoch_astrometry m := m ++ ["PMs"];
  calcL p m := (-2.5)%float;
  calcL_chisq_resids p m :=
    mkInfo (field p 0) (field p 1) 3%float 4%float 5%float 6%float 7%float 8%float |}.

(** A stand-in for emcee's sampler.  The object keeps what the constructor
    was given; the constructor makes the two checks of emcee's
    [PTSampler.__init__], an even number of walkers and at least twice as
    many walkers as dimensions. *)
Record sampler : Type := mkSampler {
  s_ntemps : nat;
  s_nwalkers : nat;
  s_dim : nat;
  s_logl : list float -> outcome pyval;
  s_logp : list float -> float }.

Definition PTSampler_init (ntemps nwalkers ndim : nat)
    (logl : list float -> outcome pyval) (logp : list float -> float)
    (threads : Z) : outcome sampler :=
  if negb (Nat.even nwalkers) then
    Raise (AssertionError "The number of walkers must be even.")
  else if (nwalkers <? 2 * ndim)%nat then
    Raise (AssertionError "The number of walkers must be greater than 2*dimension.")
  else Ok (mkSampler ntemps nwalkers ndim logl logp).

(** [f] on every element, up to the first one on which it does not
    return. *)
Fixpoint for_all {A B} (f : A -> outcome B) (l : list A) : outcome (list B) :=
  match l with
  | [] => Ok []
  | x :: l' => y ← f x; ys ← for_all f l'; mret (y :: ys)
  end.

(** The likelihood of a walker; an exception of [logl] is passed on. *)
Definition walker_lnlike (s : sampler) (theta : list float) : outcome float :=
  v ← s_logl s theta;
  match v with
  | PyFloat x => Ok x
  | PyInfo _ => Raise (LibraryError "emcee")
  end.

(** The run evaluates the likelihood at every initial position and keeps
    these positions as its only retained step. *)
Definition run_mcmc (s : sampler) (par0 : ndarray3) (nstep thin : Z)
    : outcome PTSampler :=
  if decide (shape3 par0 = (s_ntemps s, s_nwalkers s, s_dim s)) then
    lnlike ← for_all (for_all (walker_lnlike s)) (data3 par0);
    mret (mkPTSampler
            (map (fun plane => mkArray3 (s_nwalkers s, 1%nat, s_dim s)
                                        (map (fun row => [row]) plane))
                 (data3 par0))
            (map (fun plane => mkArray2 (s_nwalkers s, 1%nat) (map (fun x => [x]) plane))
                 lnlike)
            (map (map (fun _ => 0%float)) (data3 par0)))
  else Raise ValueError.

Definition lib : libraries := {|
  HipID := 3850;
  np_random_rand n := replicate n 0.5%float;
  np_power b x := if (x =? 0)%float then 1%float else b;
  load_data _ := Ok tt;
  Sampler := sampler;
  emcee_PTSampler := PTSampler_init;
  emcee_run_mcmc := run_mcmc |}.

Definition args : Args := mkArgs 2000 2 false "out" 5 100 1 None.

(** One planet on a bound orbit; a second planet with eccentricity above
    one; the same run without planets. *)
Definition theta1 : list float :=
  [0.5; 1; 0.125; 10; 0.5; 0.5; 1; 1; 1]%float.
Definition theta2 : list float :=
  (theta1 ++ [0.125; 10; 0.75; 0.75; 1; 1; 1])%float.

(** Two planets on bound orbits, of masses 0.125 and 0.25. *)
Definition theta3 : list float :=
  (theta1 ++ [0.25; 10; 0.25; 0.25; 1; 1; 1])%float.
Definition args2 : Args := mkArgs 2000 2 false "out" 5 100 2 None.
Definition args0 : Args := mkArgs 2000 2 false "out" 5 100 0 None.

(** A checkpoint of five temperatures, a hundred walkers and eleven
    columns, read with three temperatures requested; the same with two
    planets configured. *)
Definition checkpoint : ndarray3 :=
  mkArray3 (5%nat, 100%nat, 11%nat)
    (replicate 5 (replicate 100 [20; 1; 2; 3; 4; 5; 6; 7; 8; 9; 10]%float)).
Definition args_resume : Args :=
  mkArgs 2000 2 false "out" 3 64 1 (Some "start.fits").
Definition args_resume2 : Args :=
  mkArgs 2000 2 false "out" 3 64 2 (Some "start.fits").
Definition world_resume : world :=
  mkWorld {["start.fits" := FitsFile [PrimaryHDU float64 (Array3 checkpoint)]]} [].

(** An output directory whose first [n] candidate names are taken. *)
Definition taken (n : Z) : world :=
  mkWorld (foldr (fun i files => <[filename lib args i := OtherFile "chain"]> files)
                 ∅ (range n)) [].

(** The state of a sampler of one walker and one retained step. *)
Definition sample1 : PTSampler :=
  mkPTSampler [mkArray3 (1%nat, 1%nat, 9%nat) [[theta1]]]
              [mkArray2 (1%nat, 1%nat) [[(-2.5)%float]]]
              [[0.25%float]].

(** A checkpoint of one temperature and one walker. *)
Definition checkpoint1 : ndarray3 :=
  mkArray3 (1%nat, 1%nat, 11%nat) [[[20; 1; 2; 3; 4; 5; 6; 7; 8; 9; 10]%float]].
Definition world_resume1 : world :=
  mkWorld {["start.fits" := FitsFile [PrimaryHDU float64 (Array3 checkpoint1)]]} [].


(** A single-precision checkpoint of one temperature and two walkers. *)
Definition checkpoint32 : ndarray3 :=
  mkArray3 (1%nat, 2%nat, 11%nat)
    [[[1; 1; 2; 3; 4; 5; 6; 7; 8; 9; 3]%float;
      [20; 1; 2; 3; 4; 5; 6; 7; 8; 9; 10]%float]].
Definition world_resume32 : world :=
  mkWorld {["start.fits" := FitsFile [PrimaryHDU float32 (Array3 checkpoint32)]]} [].
Definition world_resume64 : world :=
  mkWorld {["start.fits" := FitsFile [PrimaryHDU float64 (Array3 checkpoint32)]]} [].

(** An output directory in which the candidate name after the first [n] is
    a directory. *)
Definition blocked (n : Z) : world :=
  mkWorld (<[filename lib args n := Directory]> (fs (taken n))) [].

(** The state of a sampler whose only stored sample has a planet with
    eccentricity above one. *)
Definition sample2 : PTSampler :=
  mkPTSampler [mkArray3 (1%nat, 1%nat, 16%nat) [[theta2]]]
              [mkArray2 (1%nat, 1%nat) [[neg_infinity]]]
              [[0%float]].

(** A run that resumes from a file that does not exist, and a checkpoint of
    twelve columns read with a negative number of temperatures. *)
Definition args_missing : Args :=
  mkArgs 2000 2 false "out" 5 100 1 (Some "missing.fits").
Definition checkpoint12 : ndarray3 :=
  mkArray3 (5%nat, 2%nat, 12%nat)
    (replicate 5 (replicate 2 [20; 1; 2; 3; 4; 5; 6; 7; 8; 9; 10; 11]%float)).
Definition args_drop2 : Args :=
  mkArgs 2000 2 false "out" (-2) 100 1 (Some "start.fits").
Definition world_resume12 : world :=
  mkWorld {["start.fits" := FitsFile [PrimaryHDU float64 (Array3 checkpoint12)]]} [].

(** A checkpoint of one temperature and eighteen walkers on a bound
    orbit, and the state of the sampler after a run from it. *)
Definition checkpoint_bound : ndarray3 :=
  mkArray3 (1%nat, 18%nat, 11%nat)
    [replicate 18 [5; 1; 0.125; 10; 0.5; 0.5; 1; 1; 0; 1; 10]%float].
Definition world_bound : world :=
  mkWorld {["start.fits" := FitsFile [PrimaryHDU float64 (Array3 checkpoint_bound)]]} [].
Definition par0_bound : ndarray3 :=
  mkArray3 (1%nat, 18%nat, 9%nat) [replicate 18 theta1].
Definition chain_bound : ndarray3 :=
  mkArray3 (18%nat, 1%nat, 9%nat) (replicate 18 [theta1]).
Definition lnprobability_bound : ndarray2 :=
  mkArray2 (18%nat, 1%nat) (replicate 18 [(-2.5)%float]).
Definition sample_bound : PTSampler :=
  mkPTSampler [chain_bound] [lnprobability_bound] [replicate 18 0%float].

(** The state of a sampler of two temperatures, two walkers and two
    retained steps; the samples of the cold chain differ from one another
    and from those of the hot chain. *)
Definition chain_cold : ndarray3 :=
  mkArray3 (2%nat, 2%nat, 9%nat)
    [[[0.5; 1; 0.125; 10; 0.5; 0.5; 1; 1; 1]%float;
      [0.1; 1; 0.25; 11; 0.5; 0.5; 1; 1; 1]%float];
     [[0.5; 2; 0.5; 12; 0.5; 0.5; 1; 1; 1]%float;
      [0.5; 3; 0.75; 13; 0.5; 0.5; 1; 1; 1]%float]].
Definition chain_hot : ndarray3 :=
  mkArray3 (2%nat, 2%nat, 9%nat)
    (replicate 2 (replicate 2 [0.5; 9; 0.875; 19; 0.5; 0.5; 1; 1; 1]%float)).
Definition lnprobability_cold : ndarray2 :=
  mkArray2 (2%nat, 2%nat) [[(-2.625)%float; (-0.1)%float]; [(-3)%float; (-3.25)%float]].
Definition lnprobability_hot : ndarray2 :=
  mkArray2 (2%nat, 2%nat) [[(-9)%float; (-9)%float]; [(-9)%float; (-9)%float]].
Definition sample22 : PTSampler :=
  mkPTSampler [chain_cold; chain_hot] [lnprobability_cold; lnprobability_hot]
              [[0.25; 0.5]%float; [0.75; 1]%float].

End Demo.

(** ** The resumed chain state and the diagnostics, as the specification
    words them *)

(** A checkpoint row of eleven columns of element type [dt]: column 0
    divided by the parallax of column 10, in the precision of [dt], columns
    1 to 7 kept, column 9 moved to column 8, the last two columns
    dropped. *)
Definition resumed_row (dt : dtype) (row : list float) : list float :=
  match row with
  | [r0; r1; r2; r3; r4; r5; r6; r7; r8; r9; r10] =>
      [np_true_divide dt r0 r10; r1; r2; r3; r4; r5; r6; r7; r9]
  | _ => row
  end.

(** The eight fields of a diagnostics row, in the order of the output. *)
Definition diagnostics_fields (res : Info) : list float :=
  [plx_best res; pmra_best res; pmdec_best res; chisq_sep res; chisq_PA res;
   chisq_H res; chisq_HG res; chisq_G res].

(** The stored sample of a step and walker of the cold chain. *)
Definition sample_at (chain0 : ndarray3) (i j : nat) : list float :=
  default [] (data3 chain0 !! i ≫= (fun plane => plane !! j)).

(** The diagnostics of one sample: the record of [calcL] on the accumulated
    model, with the parameters of the last planet. *)
Definition diagnostics_of (orbit : orbit_module) (args : Args) (theta : list float)
    : list float :=
  diagnostics_fields
    (calcL_chisq_resids orbit
       (mkParams theta (nplanets args - 1) (nplanets args))
       (accumulated_model orbit args theta)).

Definition diagnostics_array (orbit : orbit_module) (args : Args)
    (chain0 : ndarray3) (s0 s1 : nat) : ndarray3 :=
  mkArray3 (s0, s1, 8%nat)
    (map (fun i => map (fun j => diagnostics_of orbit args (sample_at chain0 i j))
                       (seq 0 s1))
         (seq 0 s0)).

(** One evaluation in diagnostics mode per stored sample, in storage order. *)
Definition diagnostics_calls (chain0 : ndarray3) (s0 s1 : nat) : list event :=
  seq 0 s0 ≫= fun i => seq 0 s1 ≫= fun j => [ev_lnprob (sample_at chain0 i j) true].

(** The three arrays of the output file: every number of the cold chain,
    of its log-posterior and of the diagnostics, in single precision. *)
Definition output_hdus (chain0 : ndarray3) (lnprobability0 : ndarray2)
    (parfit : ndarray3) : list hdu :=
  [PrimaryHDU float32
     (Array3 (mkArray3 (shape3 chain0)
                (map (map (map np_float32)) (data3 chain0))));
   PrimaryHDU float32
     (Array2 (mkArray2 (shape2 lnprobability0)
                (map (map np_float32) (data2 lnprobability0))));
   PrimaryHDU float32
     (Array3 (mkArray3 (shape3 parfit)
                (map (map (map np_float32)) (data3 parfit))))].

Definition is_lnprob_event (e : event) : bool :=
  match e with
  | ev_lnprob _ _ => true
  | _ => false
  end.

(** ** The output, as the specification words it *)

(** After sampling, the serializer evaluates the diagnostics once per
    stored sample of the cold chain and persists the three arrays in a
    file of the output directory that was not there before. *)
Definition serializer_persists_diagnostics (lib : libraries) (orbit : orbit_module)
    (args : Args) (sample0 : PTSampler) (w : world) : Prop :=
  forall chain0 lnprobability0 fractions (s0 s1 : nat),
    coldest (chain sample0) = Ok chain0 ->
    coldest (lnprobability sample0) = Ok lnprobability0 ->
    coldest (acceptance_fraction sample0) = Ok fractions ->
    shape2 lnprobability0 = (s0, s1) ->
    (forall i j, (i < s0)%nat -> (j < s1)%nat ->
       exists theta, row_at chain0 i j = Ok theta) ->
    let w' := snd (write_output lib orbit args sample0 w) in
    (List.filter is_lnprob_event (trace w') =
       List.filter is_lnprob_event (trace w) ++ diagnostics_calls chain0 s0 s1) /\
    exists name,
      fs w !! name = None /\
      fs w' !! name =
        Some (FitsFile (output_hdus chain0 lnprobability0
                          (diagnostics_array orbit args chain0 s0 s1))).

(** The same command line with another number of walkers requested. *)
Definition with_nwalkers (args : Args) (requested : Z) : Args :=
  mkArgs (nstep args) (nthreads args) (use_epoch_astrometry args) (output_dir args)
         (ntemps args) requested (nplanets args) (start_file args).

(** ** The configuration check, as the specification words it *)


(** Exhausting the thousand candidate names is reported as an error. *)
Definition exhaustion_is_fatal (lib : libraries) (args : Args) (out : list hdu)
    (w : world) : Prop :=
  (forall i, 0 <= i < 1000 -> os_path_isfile (fs w) (filename lib args i) = true) ->
  exists e, fst (write_loop lib args out w) = Raise e.

(** ** The rejection path, as the specification words it *)

(** A planet with a non-finite prior: the model is released, negative
    infinity is returned, no planet after [i] is decoded or prior-checked,
    and neither the orbital model nor the proper motions are computed. *)
Definition rejection_skips_all_models (orbit : orbit_module) (args : Args)
    (theta : list float) (i : Z) : Prop :=
  let result := lnprob orbit args theta false [] in
  result.1 = Ok (PyFloat neg_infinity) /\
  last result.2 = Some call_free /\
  (forall c j, c ∈ result.2 -> planet_of_call c = Some j -> j <= i) /\
  (forall c, c ∈ result.2 -> is_orbital_call c = false /\ is_PM_call c = false).

(** ** Reading the call log *)

Definition is_lnprior_call (c : orbit_call) : bool :=
  match c with
  | call_lnprior _ => true
  | _ => false
  end.

Definition is_free_call (c : orbit_call) : bool :=
  match c with
  | call_free => true
  | _ => false
  end.

(** The orbital model of planet [i]: the three calls of the loop body. *)
Definition orbital_calls (theta : list float) (P i : Z) : list orbit_call :=
  let params := mkParams theta i P in
  [call_calc_EA_RPP params; call_calc_RV params; call_calc_offsets params i].

(** ** What a part of the script does to the files *)

(** The files after are the files before, or one FITS file more under a
    name that was free. *)
Definition adds_at_most_one_file (before after : gmap string fsentry) : Prop :=
  after = before \/
  exists name out, before !! name = None /\ after = <[name := FitsFile out]> before.

Definition keeps_files {A} (m : Script A) : Prop :=
  forall w, fs (snd (m w)) = fs w.

Definition writes_at_most_one_file {A} (m : Script A) : Prop :=
  forall w, adds_at_most_one_file (fs w) (fs (snd (m w))).

(** ** What a part of the script does to the trace *)


(** ** Reading the starting positions *)

(** The error that a directory entry gives when the starting positions are
    read from it, if any: it must be a FITS file whose first array has
    three axes and eleven columns at least. *)
Definition checkpoint_error (path : string) (entry : option fsentry) : option exn :=
  match entry with
  | Some (FitsFile (h :: _)) =>
      match hdu_data h with
      | Array3 a => if (11 <=? (shape3 a).2)%nat then None else Some IndexError
      | Array2 _ => Some IndexError
      end
  | Some (FitsFile []) => Some IndexError
  | Some (OtherFile _) | Some Directory | None => Some (OSError path)
  end.

(** The temperatures that the slice [:ntemps] keeps of [T]. *)
Definition kept_temperatures (ntemps : Z) (T : nat) : nat :=
  if ntemps <? 0 then (T - Z.to_nat (- ntemps))%nat
  else (Z.to_nat ntemps `min` T)%nat.

(** Entry [(k, j, c)] of nested data. *)
Definition entry_at {A} (data : list (list (list A))) (k j c : nat) : option A :=
  match data !! k with
  | Some plane => match plane !! j with
                  | Some row => row !! c
                  | None => None
                  end
  | None => None
  end.

(** * Properties *)

(** ** Ranges *)

Lemma range_nonpos (n : Z) : n <= 0 -> range n = [].
Proof.
  intros Hn. unfold range. replace (Z.to_nat n) with 0%nat by lia. reflexivity.
Qed.

Lemma range_snoc (n : Z) : 0 <= n -> range (n + 1) = range n ++ [n].
Proof.
  intros Hn. unfold range.
  replace (Z.to_nat (n + 1)) with (S (Z.to_nat n)) by lia.
  rewrite seq_S, fmap_app. simpl. by rewrite Z2Nat.id.
Qed.

Lemma elem_of_range (n i : Z) : i ∈ range n <-> 0 <= i < n.
Proof.
  unfold range. rewrite list_elem_of_fmap. split.
  - intros (k & -> & Hk). apply elem_of_seq in Hk. lia.
  - intros Hi. exists (Z.to_nat i). split; [lia |]. apply elem_of_seq. lia.
Qed.

(** [range n] is split at any of its elements. *)
Lemma range_split (n k : Z) :
  0 <= k < n -> exists rest, range n = range k ++ k :: rest.
Proof.
  intros Hk. exists (Z.of_nat <$> seq (S (Z.to_nat k)) (Z.to_nat n - S (Z.to_nat k))).
  unfold range.
  replace (Z.to_nat n) with (Z.to_nat k + S (Z.to_nat n - S (Z.to_nat k)))%nat at 1 by lia.
  rewrite seq_app, fmap_app. simpl. by rewrite Z2Nat.id by lia.
Qed.

(** The least index below [i] at which a test fails. *)
Lemma first_failure (f : Z -> bool) (i : Z) :
  0 <= i -> f i = false ->
  exists k, 0 <= k <= i /\ f k = false /\ forall j, 0 <= j < k -> f j = true.
Proof.
  intros Hi. revert i Hi.
  refine (Zlt_0_ind
            (fun i => f i = false ->
               exists k, 0 <= k <= i /\ f k = false /\
                         forall j, 0 <= j < k -> f j = true) _).
  intros i IH Hi Hf.
  destruct (decide (Forall (fun j => f j = true) (range i))) as [Hall | Hsome].
  - exists i. split; [lia |]. split; [done |].
    intros j Hj. rewrite Forall_forall in Hall. apply Hall, elem_of_range. done.
  - apply not_Forall_Exists in Hsome; [| intros j; apply _].
    apply Exists_exists in Hsome as (j & Hj & Hfj).
    apply elem_of_range in Hj.
    destruct (IH j Hj) as (k & Hk & Hfk & Hbelow); [by apply not_true_is_false |].
    exists k. split; [lia | done].
Qed.

(** ** The planet loop of [lnprob] *)

Section EvaluatorFacts.
Variable orbit : orbit_module.
Variable args : Args.
Variable theta : list float.

Lemma params_after_range params :
  1 <= nplanets args ->
  params_after theta (nplanets args) params (range (nplanets args)) =
    Some (mkParams theta (nplanets args - 1) (nplanets args)).
Proof.
  intros HP.
  assert (range (nplanets args) = range (nplanets args - 1) ++ [nplanets args - 1])
    as ->.
  { rewrite <- range_snoc by lia. f_equal. lia. }
  unfold params_after. by rewrite foldl_app.
Qed.

(** While the priors are finite the loop runs on: one group of five
    calls per planet. *)
Lemma lnprob_planets_accepted planets params model calls :
  Forall (fun i => prior_finite orbit theta (nplanets args) i = true) planets ->
  lnprob_planets orbit args theta planets params model calls =
    (Ok (Next (params_after theta (nplanets args) params planets,
               foldl (add_planet orbit theta (nplanets args)) model planets)),
     calls ++ (planets ≫= accepted_calls theta (nplanets args))).
Proof.
  intros Hfin. revert params model calls.
  induction Hfin as [| i planets Hi _ IH]; intros params model calls.
  - simpl. unfold mret, St_ret. by rewrite app_nil_r.
  - unfold prior_finite in Hi.
    cbn [lnprob_planets]. unfold mbind, St_bind, called.
    rewrite Hi. cbn [negb].
    rewrite IH. cbn [mbind list_bind foldl params_after].
    unfold params_after, accepted_calls, add_planet.
    f_equal. rewrite <- !app_assoc. reflexivity.
Qed.

(** The first planet whose prior is not finite ends the evaluation. *)
Lemma lnprob_planets_rejected good k rest params model calls :
  Forall (fun i => prior_finite orbit theta (nplanets args) i = true) good ->
  prior_finite orbit theta (nplanets args) k = false ->
  lnprob_planets orbit args theta (good ++ k :: rest) params model calls =
    (Ok (Return (PyFloat neg_infinity)),
     calls ++ (good ≫= accepted_calls theta (nplanets args))
           ++ rejected_calls theta (nplanets args) k).
Proof.
  intros Hfin Hk. revert params model calls.
  induction Hfin as [| i good Hi _ IH]; intros params model calls.
  - unfold prior_finite in Hk.
    cbn [app lnprob_planets]. unfold mbind, St_bind, called.
    rewrite Hk. cbn [negb mbind list_bind app]. unfold mret, St_ret, rejected_calls.
    f_equal. rewrite <- !app_assoc. reflexivity.
  - unfold prior_finite in Hi.
    cbn [app lnprob_planets]. unfold mbind, St_bind, called.
    rewrite Hi. cbn [negb].
    rewrite IH. cbn [mbind list_bind]. unfold accepted_calls.
    f_equal. rewrite <- !app_assoc. reflexivity.
Qed.

(** With one planet at least and every prior finite, [lnprob] reaches its
    last two lines. *)
Lemma lnprob_accepted returninfo calls :
  1 <= nplanets args ->
  (forall i, 0 <= i < nplanets args ->
     prior_finite orbit theta (nplanets args) i = true) ->
  let last := mkParams theta (nplanets args - 1) (nplanets args) in
  let model := accumulated_model orbit args theta in
  lnprob orbit args theta returninfo calls =
    if returninfo then
      (Ok (PyInfo (calcL_chisq_resids orbit last model)),
       calls ++ [call_Model]
             ++ (range (nplanets args) ≫= accepted_calls theta (nplanets args))
             ++ [call_calc_PMs args; call_calcL last true])
    else
      (Ok (PyFloat (lnprior orbit last + calcL orbit last model)%float),
       calls ++ [call_Model]
             ++ (range (nplanets args) ≫= accepted_calls theta (nplanets args))
             ++ [call_calc_PMs args; call_lnprior last; call_calcL last false]).
Proof.
  intros HP Hfin last model.
  unfold lnprob. unfold mbind at 1. unfold St_bind at 1. unfold called at 1.
  unfold mbind at 1. unfold St_bind at 1.
  rewrite lnprob_planets_accepted
    by (apply Forall_forall; intros i Hi; apply Hfin, elem_of_range, Hi).
  rewrite params_after_range by done.
  subst model. unfold accumulated_model, calc_PMs, call_calc_PMs. fold last.
  destruct (use_epoch_astrometry args), returninfo;
    unfold mbind, St_bind, called, load_local, mret, St_ret;
    f_equal; rewrite <- !app_assoc; reflexivity.
Qed.

(** A planet whose prior is not finite: [lnprob] returns from inside the
    loop, at the first such planet. *)
Lemma lnprob_rejected returninfo calls k :
  0 <= k < nplanets args ->
  prior_finite orbit theta (nplanets args) k = false ->
  (forall j, 0 <= j < k -> prior_finite orbit theta (nplanets args) j = true) ->
  lnprob orbit args theta returninfo calls =
    (Ok (PyFloat neg_infinity),
     calls ++ [call_Model] ++ (range k ≫= accepted_calls theta (nplanets args))
           ++ rejected_calls theta (nplanets args) k).
Proof.
  intros Hk Hbad Hgood.
  destruct (range_split (nplanets args) k Hk) as [rest Hsplit].
  unfold lnprob. unfold mbind at 1. unfold St_bind at 1. unfold called at 1.
  unfold mbind at 1. unfold St_bind at 1.
  rewrite Hsplit, lnprob_planets_rejected;
    [| apply Forall_forall; intros j Hj; apply Hgood, elem_of_range, Hj | done].
  unfold mret, St_ret. f_equal. rewrite <- !app_assoc. reflexivity.
Qed.

(** Without planets the local [params] is never assigned. *)
Lemma lnprob_no_planets returninfo calls :
  nplanets args <= 0 ->
  lnprob orbit args theta returninfo calls =
    (Raise (UnboundLocalError "params"), calls ++ [call_Model; call_calc_PMs args]).
Proof.
  intros HP. unfold lnprob. rewrite range_nonpos by done.
  unfold call_calc_PMs.
  destruct (use_epoch_astrometry args), returninfo;
    cbn [lnprob_planets]; unfold mbind, St_bind, called, mret, St_ret, load_local, raise;
    rewrite <- ?app_assoc; reflexivity.
Qed.

End EvaluatorFacts.

(** ** The calls of a rejected evaluation *)

Lemma accepted_calls_about theta P k c :
  c ∈ (range k ≫= accepted_calls theta P) ->
  is_PM_call c = false /\ exists j, 0 <= j < k /\ planet_of_call c = Some j.
Proof.
  intros Hc. apply list_elem_of_bind in Hc as (j & Hc & Hj).
  apply elem_of_range in Hj. unfold accepted_calls in Hc.
  rewrite !elem_of_cons in Hc.
  destruct Hc as [-> | [-> | [-> | [-> | [-> | Hc]]]]];
    [.. | by apply elem_of_nil in Hc]; (split; [done | by exists j]).
Qed.

Lemma rejected_calls_about theta P k c :
  c ∈ rejected_calls theta P k ->
  is_orbital_call c = false /\ is_PM_call c = false /\
  forall j, planet_of_call c = Some j -> j = k.
Proof.
  unfold rejected_calls. rewrite !elem_of_cons.
  intros [-> | [-> | [-> | Hc]]]; [.. | by apply elem_of_nil in Hc];
    (split; [done |]; split; [done |]); simpl; congruence.
Qed.

(** C1: for a planet count P of at least one and a parameter vector all of
    whose planets have a finite prior, the scalar returned by lnprob
    (diagnostics off) is the prior of the parameters decoded for the last
    planet, index P - 1, plus the log-likelihood of the accumulated model;
    the priors of planets 0 to P - 2 are not part of the returned value. *)
Theorem lnprob_adds_last_prior_only orbit args theta calls :
  1 <= nplanets args ->
  (forall i, 0 <= i < nplanets args ->
     prior_finite orbit theta (nplanets args) i = true) ->
  fst (lnprob orbit args theta false calls) =
    Ok (PyFloat
          (lnprior orbit (mkParams theta (nplanets args - 1) (nplanets args))
           + calcL orbit (mkParams theta (nplanets args - 1) (nplanets args))
                   (accumulated_model orbit args theta))%float).
Proof.
  intros HP Hfin. by rewrite (lnprob_accepted orbit args theta false calls HP Hfin).
Qed.

Lemma lnprob_adds_last_prior_only_witness :
  nplanets Demo.args2 = 2 /\
  lnprior Demo.orbit_mass (mkParams Demo.theta3 0 2) = (-0.125)%float /\
  lnprior Demo.orbit_mass (mkParams Demo.theta3 1 2) = (-0.25)%float /\
  calcL Demo.orbit_mass (mkParams Demo.theta3 1 2)
        (accumulated_model Demo.orbit_mass Demo.args2 Demo.theta3) = (-2.5)%float /\
  accumulated_model Demo.orbit_mass Demo.args2 Demo.theta3 =
    ["EA0"; "RV0"; "offsets0"; "EA1"; "RV1"; "offsets1"; "PMs"] /\
  fst (lnprob Demo.orbit_mass Demo.args2 Demo.theta3 false []) =
    Ok (PyFloat (-2.75)%float).
Proof.
  split; [reflexivity |]. split; [vm_compute; reflexivity |].
  split; [vm_compute; reflexivity |]. split; [reflexivity |].
  split; [vm_compute; reflexivity |].
  rewrite (lnprob_adds_last_prior_only Demo.orbit_mass Demo.args2 Demo.theta3 []).
  - vm_compute. reflexivity.
  - simpl. lia.
  - intros i Hi. simpl in Hi.
    assert (i = 0 \/ i = 1) as [-> | ->] by lia; vm_compute; reflexivity.
Defined.

(** C2, as worded, fails: with two planets of which only the second has a
    non-finite prior, the orbital model of the first planet has been
    computed before the evaluation is rejected. *)
Lemma rejection_after_orbital_model :
  0 <= 1 < nplanets Demo.args2 /\
  prior_finite Demo.orbit Demo.theta2 (nplanets Demo.args2) 1 = false /\
  ~ rejection_skips_all_models Demo.orbit Demo.args2 Demo.theta2 1.
Proof.
  split; [simpl; lia |]. split; [vm_compute; reflexivity |].
  intros (_ & _ & _ & Hnone).
  destruct (Hnone (call_calc_EA_RPP (mkParams Demo.theta2 0 2))) as [Horb _].
  - apply list_elem_of_In. vm_compute. auto.
  - discriminate Horb.
Qed.

(** C2, amended: when some planet i has a non-finite prior, lnprob releases
    the scratch model and returns negative infinity at once, at the first
    such planet k <= i: planets 0 to k are decoded and prior-checked and
    none after k, the orbital model is computed for the planets before k
    only, and the proper motions and the likelihood are never computed. *)
Theorem lnprob_rejects_at_first_invalid orbit args theta returninfo i :
  0 <= i < nplanets args ->
  prior_finite orbit theta (nplanets args) i = false ->
  exists k,
    0 <= k <= i /\
    prior_finite orbit theta (nplanets args) k = false /\
    (forall j, 0 <= j < k -> prior_finite orbit theta (nplanets args) j = true) /\
    let result := lnprob orbit args theta returninfo [] in
    result =
      (Ok (PyFloat neg_infinity),
       [call_Model] ++ (range k ≫= accepted_calls theta (nplanets args))
                    ++ rejected_calls theta (nplanets args) k) /\
    last result.2 = Some call_free /\
    (forall c j, c ∈ result.2 -> planet_of_call c = Some j -> 0 <= j <= k) /\
    (forall c, c ∈ result.2 -> is_PM_call c = false) /\
    (forall c, c ∈ result.2 -> is_orbital_call c = true ->
               exists j, 0 <= j < k /\ planet_of_call c = Some j).
Proof.
  intros Hi Hbad.
  destruct (first_failure (prior_finite orbit theta (nplanets args)) i)
    as (k & Hk & Hkbad & Hbelow); [lia | done |].
  exists k. split; [done |]. split; [done |]. split; [done |].
  intros result. subst result.
  rewrite (lnprob_rejected orbit args theta returninfo [] k) by (done || lia).
  cbn [app fst snd]. split; [done |]. split; [| split; [| split]].
  - unfold rejected_calls.
    change (call_Model :: ?l) with ([call_Model] ++ l).
    rewrite !app_assoc.
    change [call_Params theta k (nplanets args);
            call_lnprior (mkParams theta k (nplanets args)); call_free]
      with ([call_Params theta k (nplanets args);
             call_lnprior (mkParams theta k (nplanets args))] ++ [call_free]).
    rewrite app_assoc. apply last_snoc.
  - intros c j Hc Hj. apply elem_of_cons in Hc as [-> | Hc]; [done |].
    apply elem_of_app in Hc as [Hc | Hc].
    + apply accepted_calls_about in Hc as (_ & j' & Hj' & Heq).
      assert (j = j') by congruence. lia.
    + apply rejected_calls_about in Hc as (_ & _ & Heq).
      rewrite (Heq j Hj). lia.
  - intros c Hc. apply elem_of_cons in Hc as [-> | Hc]; [done |].
    apply elem_of_app in Hc as [Hc | Hc].
    + by apply accepted_calls_about in Hc as (? & _).
    + by apply rejected_calls_about in Hc as (_ & ? & _).
  - intros c Hc Horb. apply elem_of_cons in Hc as [-> | Hc]; [done |].
    apply elem_of_app in Hc as [Hc | Hc].
    + by apply accepted_calls_about in Hc as (_ & ?).
    + apply rejected_calls_about in Hc as (Hno & _). congruence.
Qed.

Lemma lnprob_rejects_at_first_invalid_witness :
  exists k, 0 <= k <= 1 /\
    fst (lnprob Demo.orbit Demo.args2 Demo.theta2 false []) = Ok (PyFloat neg_infinity) /\
    forall c, c ∈ snd (lnprob Demo.orbit Demo.args2 Demo.theta2 false []) ->
              is_PM_call c = false.
Proof.
  destruct (lnprob_rejects_at_first_invalid Demo.orbit Demo.args2 Demo.theta2 false 1)
    as (k & Hk & _ & _ & Hres & _ & _ & HPM & _).
  - simpl. lia.
  - vm_compute. reflexivity.
  - exists k. split; [exact Hk |]. split; [| exact HPM].
    rewrite Hres. reflexivity.
Defined.

(** ** Shapes of arrays *)

Lemma Forall_zip_with {A B C} (f : A -> B -> C) (Q : A -> Prop) (R : B -> Prop)
    (S : C -> Prop) (l : list A) (k : list B) :
  (forall x y, Q x -> R y -> S (f x y)) ->
  Forall Q l -> Forall R k -> Forall S (zip_with f l k).
Proof.
  intros Hf Hl. revert k.
  induction Hl as [| x l Hx _ IH]; intros k Hk; [constructor |].
  destruct Hk as [| y k Hy Hk]; simpl; [constructor |].
  constructor; [by apply Hf | by apply IH].
Qed.

Lemma length_zip_with_same {A B C} (f : A -> B -> C) (l : list A) (k : list B) n :
  length l = n -> length k = n -> length (zip_with f l k) = n.
Proof. intros Hl Hk. rewrite length_zip_with. lia. Qed.

Lemma length_chunks {A} (n k : nat) (l : list A) : length (chunks n k l) = k.
Proof. revert l. induction k as [| k IH]; intros l; simpl; [done | by rewrite IH]. Qed.

Lemma Forall_length_chunks {A} (n k : nat) (l : list A) :
  (n * k <= length l)%nat -> Forall (fun c => length c = n) (chunks n k l).
Proof.
  revert l. induction k as [| k IH]; intros l Hl; simpl; constructor.
  - rewrite length_take. nia.
  - apply IH. rewrite length_drop. nia.
Qed.

Lemma Forall_chunks {A} (Q : A -> Prop) (n k : nat) (l : list A) :
  Forall Q l -> Forall (Forall Q) (chunks n k l).
Proof.
  revert l. induction k as [| k IH]; intros l Hl; simpl; constructor.
  - by apply Forall_take.
  - by apply IH, Forall_drop.
Qed.

Lemma wf_data_full (v : float) (d0 d1 d2 : nat) :
  wf_data d0 d1 d2 (replicate d0 (replicate d1 (replicate d2 v))).
Proof.
  split; [apply length_replicate |].
  apply Forall_replicate. split; [apply length_replicate |].
  apply Forall_replicate, length_replicate.
Qed.

Lemma wf_data_reshape (l : list float) (d0 d1 d2 : nat) :
  length l = (d0 * d1 * d2)%nat ->
  wf_data d0 d1 d2 (chunks d1 d0 (chunks d2 (d0 * d1) l)).
Proof.
  intros Hl. split; [apply length_chunks |].
  apply Forall_and. split.
  - apply Forall_length_chunks. rewrite length_chunks. lia.
  - apply Forall_chunks, Forall_length_chunks. lia.
Qed.

Lemma wf_data_map (f : float -> float) (d0 d1 d2 : nat) data :
  wf_data d0 d1 d2 data -> wf_data d0 d1 d2 (map (map (map f)) data).
Proof.
  intros [Hlen Hplanes]. split; [by rewrite length_map |].
  apply Forall_fmap. eapply Forall_impl; [exact Hplanes |].
  intros plane [Hp Hrows]. simpl. split; [by rewrite length_map |].
  apply Forall_fmap. eapply Forall_impl; [exact Hrows |].
  intros row Hrow. simpl. by rewrite length_map.
Qed.

Lemma wf_data_broadcast (v : list float) (d0 d1 d2 : nat) data :
  length v = d2 -> wf_data d0 d1 d2 data ->
  wf_data d0 d1 d2 (map (map (fun row => zip_with PrimFloat.mul row v)) data).
Proof.
  intros Hv [Hlen Hplanes]. split; [by rewrite length_map |].
  apply Forall_fmap. eapply Forall_impl; [exact Hplanes |].
  intros plane [Hp Hrows]. simpl. split; [by rewrite length_map |].
  apply Forall_fmap. eapply Forall_impl; [exact Hrows |].
  intros row Hrow. simpl. by apply length_zip_with_same.
Qed.

Lemma wf_data_zip (d0 d1 d2 : nat) a b :
  wf_data d0 d1 d2 a -> wf_data d0 d1 d2 b ->
  wf_data d0 d1 d2 (zip_with (zip_with (zip_with PrimFloat.mul)) a b).
Proof.
  intros [Ha Hpa] [Hb Hpb]. split; [by apply length_zip_with_same |].
  eapply Forall_zip_with; [| exact Hpa | exact Hpb].
  intros p q [Hp Hrp] [Hq Hrq]. split; [by apply length_zip_with_same |].
  eapply Forall_zip_with; [| exact Hrp | exact Hrq].
  intros r r' Hr Hr'. by apply length_zip_with_same.
Qed.

(** ** The fresh start *)

Lemma length_init_guess (P : Z) :
  0 <= P -> length (init_guess P) = Z.to_nat (2 + 7 * P).
Proof.
  intros HP. unfold init_guess.
  assert (forall (xs : list Z) acc,
            length (foldl (fun init _ => init ++ [msec; sau; esino; ecoso; inc; asc; lam])
                          acc xs) = (length acc + 7 * length xs)%nat) as Hfold.
  { induction xs as [| x xs IH]; intros acc; simpl; [lia |].
    rewrite IH, length_app. simpl. lia. }
  rewrite Hfold. unfold range. rewrite length_fmap, length_seq. simpl. lia.
Qed.

(** The fresh start succeeds for a non-negative number of temperatures and
    of planets, with the shape of [np.ones]. *)
Lemma par0_fresh_ok lib args :
  0 <= ntemps args -> 0 <= nplanets args ->
  (forall n, length (np_random_rand lib n) = n) ->
  exists par0,
    par0_fresh lib args = Ok par0 /\
    shape3 par0 = (Z.to_nat (ntemps args), 100%nat, Z.to_nat (2 + 7 * nplanets args)) /\
    wf_array3 par0.
Proof.
  intros Ht HP Hrand.
  unfold par0_fresh, np_ones, np_full.
  replace (ntemps args <? 0) with false by lia.
  replace (2 + 7 * nplanets args <? 0) with false by lia.
  cbn [orb Z.ltb Z.compare mbind outcome_bind].
  unfold imul_broadcast. cbn [shape3 data3].
  rewrite decide_True by (by apply length_init_guess).
  cbn [mbind outcome_bind shape3 data3]. unfold reshape3.
  rewrite decide_True by apply Hrand.
  cbn [mbind outcome_bind]. unfold imul3, map3. cbn [shape3 data3].
  rewrite decide_True by done.
  eexists. split; [reflexivity |]. split; [reflexivity |].
  unfold wf_array3. cbn [shape3 data3].
  apply wf_data_zip.
  - apply wf_data_broadcast; [by apply length_init_guess | apply wf_data_full].
  - apply wf_data_map, wf_data_reshape, Hrand.
Qed.

(** Whenever the fresh start succeeds, its last axis has [2 + 7 * nplanets]
    entries. *)
Lemma par0_fresh_shape lib args par0 :
  par0_fresh lib args = Ok par0 ->
  0 <= 2 + 7 * nplanets args /\
  shape3 par0 = (Z.to_nat (ntemps args), 100%nat, Z.to_nat (2 + 7 * nplanets args)).
Proof.
  unfold par0_fresh, np_ones, np_full.
  destruct (ntemps args <? 0) eqn:Ht; [discriminate |].
  destruct (2 + 7 * nplanets args <? 0) eqn:HP; [discriminate |].
  cbn [orb Z.ltb Z.compare mbind outcome_bind].
  unfold imul_broadcast. cbn [shape3 data3].
  case_decide as Hlen.
  - cbn [mbind outcome_bind shape3 data3]. unfold reshape3.
    case_decide; [| discriminate].
    cbn [mbind outcome_bind]. unfold imul3, map3. cbn [shape3 data3].
    case_decide; [| discriminate].
    intros [= <-]. split; [lia | reflexivity].
  - exfalso. apply Hlen, length_init_guess. lia.
Qed.

(** Whenever a fresh start builds the initial state, the sizes read from it
    are those given to [np.ones]. *)
Lemma initial_state_fresh_shape lib args w st w' :
  start_file args = None ->
  initial_state lib args w = (Ok st, w') ->
  0 <= 2 + 7 * nplanets args /\
  st.2 = (Z.to_nat (ntemps args), 100%nat, Z.to_nat (2 + 7 * nplanets args)) /\
  shape3 st.1 = st.2 /\ w' = w.
Proof.
  intros Hstart. unfold initial_state. rewrite Hstart.
  unfold mbind, St_bind, lift, mret, St_ret.
  destruct (par0_fresh lib args) as [par0 | |] eqn:Hpar0; [| discriminate ..].
  apply par0_fresh_shape in Hpar0 as [HP Hshape].
  unfold size_axis0, size_axis1, size_axis2. rewrite Hshape.
  repeat (match goal with
          | |- context [if ?b then _ else _] => destruct b
          end; try discriminate).
  intros [= <- <-]. cbn [fst snd]. done.
Qed.

(** C8: on a fresh start (no checkpoint file) the initial chain state is
    built with exactly 100 walkers whatever number of walkers was requested
    on the command line, and the walker count handed to the sampler is then
    read back as 100 from the shape of that array: the requested nwalkers
    is not used. *)
Theorem fresh_start_has_100_walkers lib args w :
  start_file args = None ->
  (forall requested,
     initial_state lib (with_nwalkers args requested) w = initial_state lib args w) /\
  (forall par0 ntemps' nwalkers' ndim' w',
     initial_state lib args w = (Ok (par0, (ntemps', nwalkers', ndim')), w') ->
     nwalkers' = 100%nat /\ shape3 par0 = (ntemps', 100%nat, ndim')) /\
  (1 <= ntemps args -> 0 <= nplanets args ->
   (forall n, length (np_random_rand lib n) = n) ->
   exists par0,
     initial_state lib args w =
       (Ok (par0, (Z.to_nat (ntemps args), 100%nat, Z.to_nat (2 + 7 * nplanets args))), w) /\
     wf_array3 par0).
Proof.
  intros Hstart. split; [| split].
  - intros requested. destruct args. reflexivity.
  - intros par0 nt nw nd w' Hinit.
    apply initial_state_fresh_shape in Hinit as (_ & Hsizes & Hshape & _); [| done].
    cbn [fst snd] in *. rewrite Hshape. by injection Hsizes as -> -> ->.
  - intros Ht HP Hrand.
    destruct (par0_fresh_ok lib args) as (par0 & Hpar0 & Hshape & Hwf); [lia | done | done |].
    exists par0. split; [| done].
    unfold initial_state. rewrite Hstart.
    unfold mbind, St_bind, lift, mret, St_ret. rewrite Hpar0.
    unfold size_axis0, size_axis1, size_axis2. rewrite Hshape.
    replace (0 <? Z.to_nat (ntemps args))%nat with true
      by (symmetry; apply Nat.ltb_lt; lia).
    replace (0 <? Z.to_nat (2 + 7 * nplanets args))%nat with true
      by (symmetry; apply Nat.ltb_lt; lia).
    reflexivity.
Qed.

Lemma fresh_start_has_100_walkers_witness :
  start_file Demo.args = None /\
  nwalkers (with_nwalkers Demo.args 64) = 64 /\
  exists par0,
    fst (initial_state Demo.lib (with_nwalkers Demo.args 64) (Demo.taken 0)) =
      Ok (par0, (5%nat, 100%nat, 9%nat)).
Proof.
  split; [reflexivity |]. split; [reflexivity |].
  destruct (fresh_start_has_100_walkers Demo.lib Demo.args (Demo.taken 0))
    as (Hany & _ & Hbuilt); [reflexivity |].
  destruct Hbuilt as (par0 & Hinit & _);
    [simpl; lia | simpl; lia | intros n; apply length_replicate |].
  exists par0. rewrite Hany, Hinit. reflexivity.
Defined.

(** ** Resuming from a checkpoint *)

Lemma slice_stop_nonneg (stop : Z) (len : nat) :
  0 <= stop -> slice_stop stop len = (Z.to_nat stop `min` len)%nat.
Proof. intros Hs. unfold slice_stop. destruct (stop <? 0) eqn:E; lia. Qed.

(** The three column updates and the final slice, on one row. *)
Lemma resumed_row_steps dt (row : list float) :
  length row = 11%nat ->
  take 9
    ((fun row : list float =>
        match row !! 0%nat, row !! 9%nat with
        | Some x, Some v => <[0%nat := np_true_divide dt x v]> row
        | _, _ => row
        end)
       ((fun row : list float =>
           match row !! 10%nat with Some v => <[9%nat := v]> row | None => row end)
          ((fun row : list float =>
              match row !! 9%nat with Some v => <[8%nat := v]> row | None => row end)
             row))) = resumed_row dt row.
Proof.
  intros Hrow.
  do 11 (destruct row as [| ? row]; [discriminate Hrow |]).
  destruct row; [| discriminate Hrow]. reflexivity.
Qed.

Lemma par0_resume_ok args dt ckpt (T W : nat) :
  shape3 ckpt = (T, W, 11%nat) -> wf_array3 ckpt -> 0 <= ntemps args ->
  let kept := (Z.to_nat (ntemps args) `min` T)%nat in
  par0_resume args dt (Array3 ckpt) =
    Ok (mkArray3 (kept, W, 9%nat)
          (map (map (resumed_row dt)) (take kept (data3 ckpt)))).
Proof.
  intros Hshape Hwf Ht kept. destruct ckpt as [shape data].
  unfold wf_array3 in Hwf. cbn [shape3 data3] in *. subst shape.
  destruct Hwf as [_ Hplanes].
  unfold par0_resume, assign_column, idiv_column, slice3.
  cbn [shape3 data3 mbind outcome_bind Nat.ltb Nat.leb andb mret outcome_ret].
  rewrite slice_stop_nonneg by done. fold kept.
  change (slice_stop (-2) 11) with 9%nat.
  f_equal. f_equal.
  rewrite <- !fmap_take, <- !list_fmap_compose.
  apply Forall_fmap_ext, Forall_take.
  eapply Forall_impl; [exact Hplanes |].
  intros plane [_ Hrows]. unfold compose.
  rewrite <- !list_fmap_compose.
  apply Forall_fmap_ext.
  eapply Forall_impl; [exact Hrows |].
  intros row Hrow. unfold compose. by apply resumed_row_steps.
Qed.

Lemma wf_data_resumed dt (T W kept : nat) data :
  (kept <= T)%nat -> wf_data T W 11 data ->
  wf_data kept W 9 (map (map (resumed_row dt)) (take kept data)).
Proof.
  intros Hk [Hlen Hplanes]. split; [rewrite length_map, length_take; lia |].
  apply Forall_fmap, Forall_take. eapply Forall_impl; [exact Hplanes |].
  intros plane [Hp Hrows]. simpl. split; [by rewrite length_map |].
  apply Forall_fmap. eapply Forall_impl; [exact Hrows |].
  intros row Hrow. simpl.
  do 11 (destruct row as [| ? row]; [discriminate Hrow |]).
  destruct row; [| discriminate Hrow]. reflexivity.
Qed.

(** C3: resuming from a checkpoint array of shape (T, W, 11) with t
    temperatures requested gives the initial chain state in which column 9
    has been copied to column 8, column 10 to column 9, column 0 divided by
    the parallax then in column 9, the first t temperatures kept and the
    last two columns dropped, of shape (min(t, T), W, 9); ntemps, nwalkers
    and ndim are then read from that shape and the requested values are
    discarded.  A (5, 100, 11) checkpoint with 3 temperatures requested
    gives shape (3, 100, 9).  The division is the one of the element type
    of the file: a single-precision checkpoint is divided in single
    precision. *)
Theorem resume_reconstructs_chain_state lib args w path dt ckpt hdus (T W : nat) :
  start_file args = Some path ->
  fs w !! path = Some (FitsFile (PrimaryHDU dt (Array3 ckpt) :: hdus)) ->
  shape3 ckpt = (T, W, 11%nat) -> wf_array3 ckpt ->
  0 <= ntemps args ->
  let kept := (Z.to_nat (ntemps args) `min` T)%nat in
  let par0 := mkArray3 (kept, W, 9%nat)
                       (map (map (resumed_row dt)) (take kept (data3 ckpt))) in
  par0_resume args dt (Array3 ckpt) = Ok par0 /\
  wf_array3 par0 /\
  (1 <= ntemps args -> (1 <= T)%nat -> (1 <= W)%nat ->
   initial_state lib args w = (Ok (par0, (kept, W, 9%nat)), w)).
Proof.
  intros Hstart Hfile Hshape Hwf Ht kept par0.
  assert (par0_resume args dt (Array3 ckpt) = Ok par0) as Hpar0
    by (by apply (par0_resume_ok args dt ckpt T W)).
  split; [done |]. split.
  - unfold wf_array3 in *. subst par0. cbn [shape3 data3]. rewrite Hshape in Hwf.
    apply (wf_data_resumed dt T); [lia | done].
  - intros Ht1 HT HW.
    unfold initial_state. rewrite Hstart.
    unfold mbind at 1. unfold St_bind at 1.
    unfold mbind at 1. unfold St_bind at 1.
    unfold fits_open_data. rewrite Hfile. cbn [hdu_dtype hdu_data fst snd].
    unfold lift at 1. rewrite Hpar0.
    unfold mbind, St_bind, lift, mret, St_ret, size_axis0, size_axis1, size_axis2.
    subst par0. cbn [shape3].
    replace (0 <? kept)%nat with true by (symmetry; apply Nat.ltb_lt; lia).
    replace (0 <? W)%nat with true by (symmetry; apply Nat.ltb_lt; lia).
    reflexivity.
Qed.

Lemma resume_reconstructs_chain_state_witness :
  start_file Demo.args_resume = Some "start.fits" /\
  ntemps Demo.args_resume = 3 /\
  nwalkers Demo.args_resume = 64 /\
  shape3 Demo.checkpoint = (5%nat, 100%nat, 11%nat) /\
  wf_array3 Demo.checkpoint /\
  (exists par0,
     initial_state Demo.lib Demo.args_resume Demo.world_resume =
       (Ok (par0, (3%nat, 100%nat, 9%nat)), Demo.world_resume) /\
     shape3 par0 = (3%nat, 100%nat, 9%nat)) /\
  initial_state Demo.lib Demo.args_resume Demo.world_resume32 =
    (Ok (mkArray3 (1%nat, 2%nat, 9%nat)
           [[[0.3333333432674408; 1; 2; 3; 4; 5; 6; 7; 9]%float;
             [2; 1; 2; 3; 4; 5; 6; 7; 9]%float]],
         (1%nat, 2%nat, 9%nat)), Demo.world_resume32).
Proof.
  assert (wf_array3 Demo.checkpoint) as Hwf.
  { split; [reflexivity |]. apply Forall_replicate. split; [reflexivity |].
    apply Forall_replicate. reflexivity. }
  split; [reflexivity |]. split; [reflexivity |]. split; [reflexivity |].
  split; [reflexivity |]. split; [exact Hwf |]. split.
  - destruct (resume_reconstructs_chain_state Demo.lib Demo.args_resume Demo.world_resume
                "start.fits" float64 Demo.checkpoint [] 5 100) as (_ & _ & Hinit);
      [reflexivity | reflexivity | reflexivity | exact Hwf | simpl; lia |].
    eexists. split; [apply Hinit; (simpl; lia) | reflexivity].
  - destruct (resume_reconstructs_chain_state Demo.lib Demo.args_resume
                Demo.world_resume32 "start.fits" float32 Demo.checkpoint32 [] 1 2)
      as (_ & _ & Hinit);
      [reflexivity | reflexivity | reflexivity | | simpl; lia |].
    + split; [reflexivity |]. repeat constructor.
    + rewrite Hinit by (simpl; lia). vm_compute. reflexivity.
Defined.

(** The same array stored in double precision is divided in double
    precision. *)
Example resume_divides_in_double_precision :
  initial_state Demo.lib Demo.args_resume Demo.world_resume64 =
    (Ok (mkArray3 (1%nat, 2%nat, 9%nat)
           [[[0.33333333333333331; 1; 2; 3; 4; 5; 6; 7; 9]%float;
             [2; 1; 2; 3; 4; 5; 6; 7; 9]%float]],
         (1%nat, 2%nat, 9%nat)), Demo.world_resume64).
Proof. vm_compute. reflexivity. Qed.

(** [np.float32] on numbers that single precision holds, rounds, overflows
    on and flushes to zero. *)
Example np_float32_values :
  np_float32 (-2.5)%float = (-2.5)%float /\
  np_float32 0.1%float = 0.10000000149011612%float /\
  np_float32 16777217%float = 16777216%float /\
  np_float32 1e300%float = infinity /\
  np_float32 1e-50%float = 0%float /\
  np_float32 neg_infinity = neg_infinity.
Proof. vm_compute. repeat split; reflexivity. Qed.

(** Outside the range of the theorem: with no temperature requested the
    slice is empty and reading [nwalkers] from it is an IndexError. *)
Example resume_without_temperatures :
  fst (initial_state Demo.lib (mkArgs 2000 2 false "out" 0 64 1 (Some "start.fits"))
                     Demo.world_resume) = Raise IndexError.
Proof. vm_compute. reflexivity. Qed.

(** ** The configuration is not checked *)

(** The three calls of the sampler section, when the data load and the
    constructor return: the run is the third call, on the sampler that the
    constructor gave. *)
Lemma run_sampler_events lib orbit args st sampler w :
  load_data lib (use_epoch_astrometry args) = Ok tt ->
  emcee_PTSampler lib st.2.1.1 st.2.1.2 st.2.2 (logl orbit args) return_one
                  (nthreads args) = Ok sampler ->
  run_sampler lib orbit args st w =
    (emcee_run_mcmc lib sampler st.1 (nstep args) 50,
     mkWorld (fs w)
             (trace w ++ [ev_load_data (use_epoch_astrometry args);
                          ev_PTSampler st.2.1.1 st.2.1.2 st.2.2 (nthreads args);
                          ev_run_mcmc st.1 (nstep args) 50])).
Proof.
  destruct st as [par0 [[nt nw] nd]]. cbn [fst snd]. intros Hload Hinit.
  unfold run_sampler.
  unfold mbind, St_bind, emit, lift. cbn [fs trace fst snd].
  rewrite Hload, Hinit. by rewrite <- !app_assoc.
Qed.

(** A sampler that the constructor refuses is never run. *)
Lemma run_sampler_refused lib orbit args st e w :
  load_data lib (use_epoch_astrometry args) = Ok tt ->
  emcee_PTSampler lib st.2.1.1 st.2.1.2 st.2.2 (logl orbit args) return_one
                  (nthreads args) = Raise e ->
  run_sampler lib orbit args st w =
    (Raise e,
     mkWorld (fs w)
             (trace w ++ [ev_load_data (use_epoch_astrometry args);
                          ev_PTSampler st.2.1.1 st.2.1.2 st.2.2 (nthreads args)])).
Proof.
  destruct st as [par0 [[nt nw] nd]]. cbn [fst snd]. intros Hload Hinit.
  unfold run_sampler.
  unfold mbind, St_bind, emit, lift. cbn [fs trace fst snd].
  rewrite Hload, Hinit. by rewrite <- !app_assoc.
Qed.

(** ** The trace only grows *)










(** ** The configuration is not checked *)




(** A checkpoint of a single walker gets no further than the constructor
    of the sampler, which refuses the number of walkers; the sampler is not
    run. *)
Example single_walker_is_refused :
  main Demo.lib Demo.orbit Demo.args_resume2 Demo.world_resume1 =
    (Raise (AssertionError "The number of walkers must be even."),
     mkWorld (fs Demo.world_resume1) [ev_load_data false; ev_PTSampler 1 1 9 2]).
Proof. vm_compute. reflexivity. Qed.

(** ** Choosing the output file *)

Section WriteLoop.
Variable lib : libraries.
Variable args : Args.
Variable out : list hdu.

Lemma write_step_taken i w :
  os_path_isfile (fs w) (filename lib args i) = true ->
  write_step lib args out i tt w = (Ok tt, w).
Proof. intros Hfile. unfold write_step. by rewrite Hfile. Qed.

Lemma write_step_free i w :
  fs w !! filename lib args i = None ->
  write_step lib args out i tt w =
    (SystemExit,
     mkWorld (<[filename lib args i := FitsFile out]> (fs w))
             (trace w ++ [ev_print_writing (filename lib args i);
                          ev_writeto (filename lib args i)])).
Proof.
  intros Hfree. unfold write_step, os_path_isfile. rewrite Hfree. cbn [negb].
  unfold mbind, St_bind, emit, writeto, lift. cbn [fs trace]. rewrite Hfree.
  by rewrite <- app_assoc.
Qed.

(** Names that are taken are passed over. *)
Lemma write_steps_taken (l : list Z) w :
  Forall (fun i => os_path_isfile (fs w) (filename lib args i) = true) l ->
  for_each l (write_step lib args out) tt w = (Ok tt, w).
Proof.
  induction 1 as [| i l Hi _ IH]; [done |].
  cbn [for_each]. unfold mbind, St_bind. by rewrite write_step_taken.
Qed.

(** The first free name is written, and the script exits there. *)
Lemma write_steps_first_free (taken : list Z) k (rest : list Z) w :
  Forall (fun i => os_path_isfile (fs w) (filename lib args i) = true) taken ->
  fs w !! filename lib args k = None ->
  for_each (taken ++ k :: rest) (write_step lib args out) tt w =
    (SystemExit,
     mkWorld (<[filename lib args k := FitsFile out]> (fs w))
             (trace w ++ [ev_print_writing (filename lib args k);
                          ev_writeto (filename lib args k)])).
Proof.
  intros Htaken Hfree.
  induction Htaken as [| i l Hi _ IH]; cbn [app for_each]; unfold mbind, St_bind.
  - by rewrite write_step_free.
  - by rewrite write_step_taken.
Qed.

Lemma write_loop_first_free k w :
  0 <= k < 1000 ->
  (forall i, 0 <= i < k -> os_path_isfile (fs w) (filename lib args i) = true) ->
  fs w !! filename lib args k = None ->
  write_loop lib args out w =
    (SystemExit,
     mkWorld (<[filename lib args k := FitsFile out]> (fs w))
             (trace w ++ [ev_print_writing (filename lib args k);
                          ev_writeto (filename lib args k)])).
Proof.
  intros Hk Htaken Hfree. unfold write_loop.
  destruct (range_split 1000 k Hk) as [rest ->].
  apply write_steps_first_free; [| done].
  apply Forall_forall. intros i Hi. by apply Htaken, elem_of_range.
Qed.

(** Whatever the directory holds, no entry of it is replaced or removed. *)
Lemma write_steps_keep_entries (l : list Z) w path entry :
  fs w !! path = Some entry ->
  fs (snd (for_each l (write_step lib args out) tt w)) !! path = Some entry.
Proof.
  revert w. induction l as [| i l IH]; intros w Hentry; [done |].
  cbn [for_each]. unfold mbind, St_bind.
  destruct (os_path_isfile (fs w) (filename lib args i)) eqn:Hfile.
  - rewrite write_step_taken by done. by apply IH.
  - unfold write_step. rewrite Hfile. cbn [negb].
    unfold mbind, St_bind, emit, writeto, lift. cbn [fs trace].
    destruct (fs w !! filename lib args i) eqn:Hname; cbn [snd fs]; [done |].
    rewrite lookup_insert_ne; [done |]. congruence.
Qed.

End WriteLoop.

(** A directory built by [Demo.taken] holds each of its names. *)
Lemma taken_isfile (n i : Z) :
  0 <= i < n ->
  os_path_isfile (fs (Demo.taken n)) (filename Demo.lib Demo.args i) = true.
Proof.
  intros Hi. apply elem_of_range in Hi. unfold Demo.taken. cbn [fs].
  induction (range n) as [| j l IH]; [by apply elem_of_nil in Hi |].
  cbn [foldr]. unfold os_path_isfile.
  destruct (decide (filename Demo.lib Demo.args j = filename Demo.lib Demo.args i))
    as [-> | Hne].
  - by rewrite lookup_insert_eq.
  - rewrite lookup_insert_ne by done.
    apply elem_of_cons in Hi as [-> | Hi]; [done | by apply IH].
Qed.

(** C5 describes what the serializer should do; the code does this
    instead: when the thousand candidate names 0 to 999 are all taken, the
    loop over the names runs off its end and the script ends normally,
    with nothing written, nothing printed and no error raised. *)
Theorem write_loop_exhausted_is_silent lib args out w :
  (forall i, 0 <= i < 1000 -> os_path_isfile (fs w) (filename lib args i) = true) ->
  write_loop lib args out w = (Ok tt, w) /\ ~ exhaustion_is_fatal lib args out w.
Proof.
  intros Htaken.
  assert (write_loop lib args out w = (Ok tt, w)) as Hloop.
  { unfold write_loop. apply write_steps_taken, Forall_forall.
    intros i Hi. by apply Htaken, elem_of_range. }
  split; [done |]. intros Hfatal.
  destruct (Hfatal Htaken) as [e He]. by rewrite Hloop in He.
Qed.

Lemma write_loop_exhausted_is_silent_witness :
  (forall i, 0 <= i < 1000 ->
     os_path_isfile (fs (Demo.taken 1000)) (filename Demo.lib Demo.args i) = true) /\
  write_loop Demo.lib Demo.args [] (Demo.taken 1000) = (Ok tt, Demo.taken 1000).
Proof.
  split; [apply taken_isfile |].
  apply (write_loop_exhausted_is_silent Demo.lib Demo.args [] (Demo.taken 1000)).
  apply taken_isfile.
Defined.

(** C6: in an output directory whose files take the candidate names 0 to
    41, the output is written under name 42 and no entry of the directory
    is changed; in general the output goes to the first candidate name that
    does not exist, and an existing file is never overwritten. *)
Theorem writes_first_free_name lib args out w k :
  0 <= k < 1000 ->
  (forall i, 0 <= i < k -> os_path_isfile (fs w) (filename lib args i) = true) ->
  fs w !! filename lib args k = None ->
  write_loop lib args out w =
    (SystemExit,
     mkWorld (<[filename lib args k := FitsFile out]> (fs w))
             (trace w ++ [ev_print_writing (filename lib args k);
                          ev_writeto (filename lib args k)])) /\
  (forall path entry,
     fs w !! path = Some entry ->
     fs (snd (write_loop lib args out w)) !! path = Some entry) /\
  (forall w0 path entry,
     fs w0 !! path = Some entry ->
     fs (snd (write_loop lib args out w0)) !! path = Some entry).
Proof.
  intros Hk Htaken Hfree.
  split; [by apply write_loop_first_free |].
  split; [intros path entry | intros w0 path entry];
    apply write_steps_keep_entries.
Qed.

Lemma writes_first_free_name_witness :
  (forall i, 0 <= i < 42 ->
     os_path_isfile (fs (Demo.taken 42)) (filename Demo.lib Demo.args i) = true) /\
  fs (Demo.taken 42) !! filename Demo.lib Demo.args 42 = None /\
  filename Demo.lib Demo.args 42 = "out/HIP3850_chain042.fits" /\
  fst (write_loop Demo.lib Demo.args [] (Demo.taken 42)) = SystemExit /\
  fs (snd (write_loop Demo.lib Demo.args [] (Demo.taken 42)))
    = <["out/HIP3850_chain042.fits" := FitsFile []]> (fs (Demo.taken 42)).
Proof.
  assert (fs (Demo.taken 42) !! filename Demo.lib Demo.args 42 = None) as Hfree
    by (vm_compute; reflexivity).
  split; [apply taken_isfile |]. split; [exact Hfree |].
  split; [vm_compute; reflexivity |].
  destruct (writes_first_free_name Demo.lib Demo.args [] (Demo.taken 42) 42)
    as (Hloop & _ & _); [lia | apply taken_isfile | exact Hfree |].
  rewrite Hloop. split; reflexivity.
Defined.

(** ** Loops that cannot fail *)

Lemma world_eta w : mkWorld (fs w) (trace w ++ []) = w.
Proof. destruct w. cbn. by rewrite app_nil_r. Qed.

(** A loop whose body returns and only adds events is a fold. *)
Lemma for_each_events {X A} (l : list X) (body : X -> A -> Script A)
    (g : X -> A -> A) (ev : X -> list event) a w :
  (forall x a w, x ∈ l ->
     body x a w = (Ok (g x a), mkWorld (fs w) (trace w ++ ev x))) ->
  for_each l body a w =
    (Ok (foldl (fun a x => g x a) a l), mkWorld (fs w) (trace w ++ (l ≫= ev))).
Proof.
  revert a w. induction l as [| x l IH]; intros a w Hbody.
  - cbn. unfold mret, St_ret. by rewrite world_eta.
  - cbn [for_each]. unfold mbind at 1. unfold St_bind at 1.
    rewrite Hbody by apply list_elem_of_here.
    rewrite IH by (intros; apply Hbody; by apply list_elem_of_further).
    cbn [fs trace foldl mbind list_bind]. by rewrite <- app_assoc.
Qed.

Lemma foldl_pointwise {A B} (f g : A -> B -> A) (l : list B) (a : A) :
  (forall a x, f a x = g a x) -> foldl f a l = foldl g a l.
Proof.
  intros Hfg. revert a. induction l as [| x l IH]; intros a; [done |].
  cbn. by rewrite Hfg, IH.
Qed.

(** Filling the first [n] entries of a list, in order. *)
Lemma foldl_insert_seq {A} (r : nat -> A) (p : list A) (n : nat) :
  (n <= length p)%nat ->
  foldl (fun p j => <[j := r j]> p) p (seq 0 n) = map r (seq 0 n) ++ drop n p.
Proof.
  induction n as [| n IH]; intros Hn; [done |].
  rewrite seq_S, foldl_app, IH by lia. cbn [foldl plus].
  destruct (lookup_lt_is_Some_2 p n) as [x Hx]; [lia |].
  rewrite (drop_S p x n Hx), map_app.
  rewrite insert_app_r_alt by (rewrite length_map, length_seq; lia).
  rewrite length_map, length_seq, Nat.sub_diag. cbn. by rewrite <- app_assoc.
Qed.

Lemma foldl_alter_seq {A} (F : nat -> A -> A) (G : nat -> A) (d : list A) (n : nat) :
  (n <= length d)%nat ->
  (forall i x, (i < n)%nat -> d !! i = Some x -> F i x = G i) ->
  foldl (fun d i => alter (F i) i d) d (seq 0 n) = map G (seq 0 n) ++ drop n d.
Proof.
  induction n as [| n IH]; intros Hn HF; [done |].
  rewrite seq_S, foldl_app, IH by (lia || (intros; apply HF; (lia || done))).
  cbn [foldl plus].
  destruct (lookup_lt_is_Some_2 d n) as [x Hx]; [lia |].
  rewrite (drop_S d x n Hx), map_app.
  rewrite alter_app_r_alt by (rewrite length_map, length_seq; lia).
  rewrite length_map, length_seq, Nat.sub_diag. cbn.
  rewrite (HF n x) by (lia || done). by rewrite <- app_assoc.
Qed.

(** Assigning rows [i, j] for the [j] of a list alters plane [i] only. *)
Lemma foldl_set_row (r : nat -> list float) (i : nat) (l : list nat) (a : ndarray3) :
  foldl (fun a j => set_row a i j (r j)) a l =
    mkArray3 (shape3 a)
             (alter (fun plane => foldl (fun p j => <[j := r j]> p) plane l) i (data3 a)).
Proof.
  revert a. induction l as [| j l IH]; intros a.
  - cbn. rewrite list_alter_id by done. by destruct a.
  - cbn [foldl]. rewrite IH. unfold set_row. cbn [shape3 data3].
    by rewrite list_alter_alter_eq.
Qed.

Lemma foldl_alter_planes (F : nat -> list (list float) -> list (list float))
    (l : list nat) (a : ndarray3) :
  foldl (fun a i => mkArray3 (shape3 a) (alter (F i) i (data3 a))) a l =
    mkArray3 (shape3 a) (foldl (fun d i => alter (F i) i d) (data3 a) l).
Proof.
  revert a. induction l as [| i l IH]; intros a; [by destruct a |].
  cbn [foldl]. by rewrite IH.
Qed.

(** The two loops over an array of zeros fill it row by row. *)
Lemma fill_zeros (r : nat -> nat -> list float) (s0 s1 : nat) :
  foldl (fun a i => foldl (fun a j => set_row a i j (r i j)) a (seq 0 s1))
        (mkArray3 (s0, s1, 8%nat) (replicate s0 (replicate s1 (replicate 8 0%float))))
        (seq 0 s0) =
    mkArray3 (s0, s1, 8%nat) (map (fun i => map (r i) (seq 0 s1)) (seq 0 s0)).
Proof.
  rewrite (foldl_pointwise _
             (fun a i => mkArray3 (shape3 a)
                (alter (fun plane => foldl (fun p j => <[j := r i j]> p) plane (seq 0 s1))
                       i (data3 a))))
    by (intros a i; apply foldl_set_row).
  rewrite foldl_alter_planes. cbn [shape3 data3]. f_equal.
  rewrite (foldl_alter_seq _ (fun i => map (r i) (seq 0 s1)));
    [| by rewrite length_replicate |].
  - rewrite drop_ge by (by rewrite length_replicate). by rewrite app_nil_r.
  - intros i plane _ Hplane. apply lookup_replicate in Hplane as [-> _].
    rewrite foldl_insert_seq by (by rewrite length_replicate).
    rewrite drop_ge by (by rewrite length_replicate). by rewrite app_nil_r.
Qed.

(** ** The diagnostics of the stored samples *)

Lemma parfit_row_info (res : Info) : parfit_row (PyInfo res) = Ok (diagnostics_fields res).
Proof. reflexivity. Qed.

Lemma parfit_row_float (x : float) : parfit_row (PyFloat x) = Raise (AttributeError "plx_best").
Proof. reflexivity. Qed.

Lemma row_at_sample chain0 i j theta :
  row_at chain0 i j = Ok theta -> sample_at chain0 i j = theta.
Proof.
  unfold row_at, sample_at.
  destruct (data3 chain0 !! i ≫= (fun plane => plane !! j)); [| discriminate].
  by intros [= ->].
Qed.

(** One pass of the loop body on a sample all of whose priors are finite. *)
Lemma parfit_step_accepted orbit args sample0 chain0 i j parfit w :
  coldest (chain sample0) = Ok chain0 ->
  1 <= nplanets args ->
  (exists theta, row_at chain0 i j = Ok theta /\
     forall p, 0 <= p < nplanets args ->
               prior_finite orbit theta (nplanets args) p = true) ->
  parfit_step orbit args sample0 i j parfit w =
    (Ok (set_row parfit i j (diagnostics_of orbit args (sample_at chain0 i j))),
     mkWorld (fs w) (trace w ++ [ev_lnprob (sample_at chain0 i j) true])).
Proof.
  intros Hchain HP (theta & Hrow & Hfin).
  rewrite (row_at_sample _ _ _ _ Hrow).
  unfold parfit_step, mbind, St_bind, lift, emit, mret, St_ret.
  rewrite Hchain, Hrow. cbn [fs trace].
  rewrite (lnprob_accepted orbit args theta true [] HP Hfin). cbn [fst].
  by rewrite parfit_row_info.
Qed.

(** One pass of the loop body on a sample with a non-finite prior. *)
Lemma parfit_step_rejected orbit args sample0 chain0 i j parfit w theta p :
  coldest (chain sample0) = Ok chain0 ->
  row_at chain0 i j = Ok theta ->
  0 <= p < nplanets args ->
  prior_finite orbit theta (nplanets args) p = false ->
  parfit_step orbit args sample0 i j parfit w =
    (Raise (AttributeError "plx_best"),
     mkWorld (fs w) (trace w ++ [ev_lnprob theta true])).
Proof.
  intros Hchain Hrow Hp Hbad.
  destruct (first_failure (prior_finite orbit theta (nplanets args)) p)
    as (k & Hk & Hkbad & Hbelow); [lia | done |].
  unfold parfit_step, mbind, St_bind, lift, emit, mret, St_ret.
  rewrite Hchain, Hrow. cbn [fs trace].
  rewrite (lnprob_rejected orbit args theta true [] k) by (done || lia).
  cbn [fst]. by rewrite parfit_row_float.
Qed.

(** The two loops of the serializer, when every stored sample has finite
    priors. *)
Lemma diagnostics_loops orbit args sample0 chain0 (s0 s1 : nat) w :
  coldest (chain sample0) = Ok chain0 ->
  1 <= nplanets args ->
  (forall i j, (i < s0)%nat -> (j < s1)%nat ->
     exists theta, row_at chain0 i j = Ok theta /\
       forall p, 0 <= p < nplanets args ->
                 prior_finite orbit theta (nplanets args) p = true) ->
  for_each (seq 0 s0) (fun i parfit =>
     for_each (seq 0 s1) (fun j parfit =>
       parfit_step orbit args sample0 i j parfit) parfit)
    (mkArray3 (s0, s1, 8%nat) (replicate s0 (replicate s1 (replicate 8 0%float)))) w =
    (Ok (diagnostics_array orbit args chain0 s0 s1),
     mkWorld (fs w) (trace w ++ diagnostics_calls chain0 s0 s1)).
Proof.
  intros Hchain HP Hsamples.
  rewrite (for_each_events _ _
             (fun i a => foldl (fun a j =>
                set_row a i j (diagnostics_of orbit args (sample_at chain0 i j)))
                a (seq 0 s1))
             (fun i => seq 0 s1 ≫= fun j => [ev_lnprob (sample_at chain0 i j) true])).
  - rewrite fill_zeros. reflexivity.
  - intros i a w' Hi. apply elem_of_seq in Hi.
    apply (for_each_events _ _
             (fun j a => set_row a i j (diagnostics_of orbit args (sample_at chain0 i j)))
             (fun j => [ev_lnprob (sample_at chain0 i j) true])).
    intros j a' w'' Hj. apply elem_of_seq in Hj.
    apply parfit_step_accepted; [done | done |].
    apply Hsamples; lia.
Qed.

(** The serializer up to its two loops. *)
Lemma write_output_prefix lib orbit args sample0 lnprobability0 fractions
    (s0 s1 : nat) w :
  coldest (lnprobability sample0) = Ok lnprobability0 ->
  coldest (acceptance_fraction sample0) = Ok fractions ->
  shape2 lnprobability0 = (s0, s1) ->
  write_output lib orbit args sample0 w =
    (parfit ← for_each (seq 0 s0) (fun i parfit =>
                for_each (seq 0 s1) (fun j parfit =>
                  parfit_step orbit args sample0 i j parfit) parfit)
              (mkArray3 (s0, s1, 8%nat)
                        (replicate s0 (replicate s1 (replicate 8 0%float))));
     chain0 ← lift (coldest (chain sample0));
     lnprobability0 ← lift (coldest (lnprobability sample0));
     write_loop lib args (output_hdus chain0 lnprobability0 parfit))
      (mkWorld (fs w) (trace w ++ [ev_print_total_time; ev_print_acceptance fractions])).
Proof.
  intros Hlnp Hfrac Hshape.
  unfold write_output.
  unfold mbind at 1. unfold St_bind at 1. unfold emit at 1.
  unfold mbind at 1. unfold St_bind at 1. rewrite Hfrac. unfold lift at 1.
  unfold mbind at 1. unfold St_bind at 1. unfold emit at 1. cbn [fs trace].
  unfold mbind at 1. unfold St_bind at 1. rewrite Hlnp. unfold lift at 1.
  rewrite Hshape. cbn [fst snd].
  unfold mbind at 1. unfold St_bind at 1. unfold lift at 1.
  unfold np_zeros, np_full.
  assert ((Z.of_nat s0 <? 0) = false) as -> by (apply Z.ltb_ge; lia).
  assert ((Z.of_nat s1 <? 0) = false) as -> by (apply Z.ltb_ge; lia).
  cbn [orb Z.ltb Z.compare]. rewrite !Nat2Z.id.
  change (Z.to_nat 8) with 8%nat.
  rewrite <- app_assoc. reflexivity.
Qed.

(** The serializer up to the choice of the name, when every stored sample
    has finite priors. *)
Lemma write_output_diagnostics lib orbit args sample0 chain0 lnprobability0 fractions
    (s0 s1 : nat) w :
  coldest (chain sample0) = Ok chain0 ->
  coldest (lnprobability sample0) = Ok lnprobability0 ->
  coldest (acceptance_fraction sample0) = Ok fractions ->
  shape2 lnprobability0 = (s0, s1) ->
  1 <= nplanets args ->
  (forall i j, (i < s0)%nat -> (j < s1)%nat ->
     exists theta, row_at chain0 i j = Ok theta /\
       forall p, 0 <= p < nplanets args ->
                 prior_finite orbit theta (nplanets args) p = true) ->
  write_output lib orbit args sample0 w =
    write_loop lib args
      (output_hdus chain0 lnprobability0 (diagnostics_array orbit args chain0 s0 s1))
      (mkWorld (fs w)
               (trace w ++ [ev_print_total_time; ev_print_acceptance fractions]
                        ++ diagnostics_calls chain0 s0 s1)).
Proof.
  intros Hchain Hlnp Hfrac Hshape HP Hsamples.
  rewrite (write_output_prefix lib orbit args sample0 lnprobability0 fractions s0 s1)
    by done.
  unfold mbind at 1. unfold St_bind at 1.
  rewrite (diagnostics_loops orbit args sample0 chain0 s0 s1) by done.
  unfold mbind, St_bind, lift. rewrite Hchain, Hlnp. cbn [fs trace].
  by rewrite <- app_assoc.
Qed.

(** C7, as worded, fails: the serializer does not always get as far as the
    output.  When the one stored sample has a planet with a non-finite
    prior, reading the diagnostics fails; when no planet is configured,
    lnprob itself fails; when the thousand candidate names are taken, the
    diagnostics are computed and then dropped.  In all three runs no file
    is written. *)
Lemma serializer_loses_output :
  (fst (write_output Demo.lib Demo.orbit Demo.args2 Demo.sample2 (Demo.taken 3)) =
     Raise (AttributeError "plx_best") /\
   ~ serializer_persists_diagnostics Demo.lib Demo.orbit Demo.args2 Demo.sample2
       (Demo.taken 3)) /\
  (fst (write_output Demo.lib Demo.orbit Demo.args0 Demo.sample1 (Demo.taken 3)) =
     Raise (UnboundLocalError "params") /\
   ~ serializer_persists_diagnostics Demo.lib Demo.orbit Demo.args0 Demo.sample1
       (Demo.taken 3)) /\
  (fst (write_output Demo.lib Demo.orbit Demo.args Demo.sample1 (Demo.taken 1000)) =
     Ok tt /\
   ~ serializer_persists_diagnostics Demo.lib Demo.orbit Demo.args Demo.sample1
       (Demo.taken 1000)).
Proof.
  assert (forall theta i j, (i < 1)%nat -> (j < 1)%nat ->
            exists th, row_at (mkArray3 (1%nat, 1%nat, length theta) [[theta]]) i j = Ok th)
    as Hrows.
  { intros theta i j Hi Hj. assert (i = 0%nat) as -> by lia.
    assert (j = 0%nat) as -> by lia. by exists theta. }
  split; [| split].
  - split; [vm_compute; reflexivity |]. intros Hclaim.
    destruct (Hclaim _ _ _ 1%nat 1%nat eq_refl eq_refl eq_refl eq_refl
                (Hrows Demo.theta2)) as [_ (name & Hfree & Hfile)].
    assert (fs (snd (write_output Demo.lib Demo.orbit Demo.args2 Demo.sample2
                       (Demo.taken 3))) = fs (Demo.taken 3)) as Hfs
      by (vm_compute; reflexivity).
    rewrite Hfs in Hfile. congruence.
  - split; [vm_compute; reflexivity |]. intros Hclaim.
    destruct (Hclaim _ _ _ 1%nat 1%nat eq_refl eq_refl eq_refl eq_refl
                (Hrows Demo.theta1)) as [_ (name & Hfree & Hfile)].
    assert (fs (snd (write_output Demo.lib Demo.orbit Demo.args0 Demo.sample1
                       (Demo.taken 3))) = fs (Demo.taken 3)) as Hfs
      by (vm_compute; reflexivity).
    rewrite Hfs in Hfile. congruence.
  - assert (write_output Demo.lib Demo.orbit Demo.args Demo.sample1 (Demo.taken 1000) =
              (Ok tt,
               mkWorld (fs (Demo.taken 1000))
                 (trace (Demo.taken 1000)
                    ++ [ev_print_total_time; ev_print_acceptance [0.25%float]]
                    ++ diagnostics_calls
                         (mkArray3 (1%nat, 1%nat, 9%nat) [[Demo.theta1]]) 1 1))) as Hrun.
    { rewrite (write_output_diagnostics Demo.lib Demo.orbit Demo.args Demo.sample1
                 (mkArray3 (1%nat, 1%nat, 9%nat) [[Demo.theta1]])
                 (mkArray2 (1%nat, 1%nat) [[(-2.5)%float]]) [0.25%float] 1 1);
        [| reflexivity | reflexivity | reflexivity | reflexivity | simpl; lia |].
      - unfold write_loop. apply write_steps_taken. cbn [fs].
        apply Forall_forall. intros i Hi. apply elem_of_range in Hi.
        by apply taken_isfile.
      - intros i j Hi Hj. assert (i = 0%nat) as -> by lia.
        assert (j = 0%nat) as -> by lia.
        exists Demo.theta1. split; [reflexivity |].
        intros p Hp. simpl in Hp. assert (p = 0) as -> by lia. vm_compute. reflexivity. }
    split; [by rewrite Hrun |]. intros Hclaim.
    destruct (Hclaim _ _ _ 1%nat 1%nat eq_refl eq_refl eq_refl eq_refl
                (Hrows Demo.theta1)) as [_ (name & Hfree & Hfile)].
    rewrite Hrun in Hfile. cbn [snd fs] in Hfile. congruence.
Qed.

(** C7, amended: after sampling, provided that a planet is configured,
    that every sample stored in the coldest chain (temperature index 0) has
    finite priors for all planets and that one of the thousand candidate
    names is free, the serializer evaluates lnprob in diagnostics mode
    exactly once for each (retained step, walker) pair of that chain, on the
    sample stored there, and the file it writes holds three float32 arrays:
    the cold chain, its log-posterior trace, and the diagnostics with the
    eight fields best parallax, best proper motion in RA, best proper motion
    in Dec, chi-square of the separation, of the position angle, of
    Hipparcos alone, of Hipparcos with Gaia, and of Gaia alone, in this
    order. *)
Theorem write_output_recomputes_diagnostics lib orbit args sample0
    chain0 lnprobability0 fractions (s0 s1 : nat) w k :
  coldest (chain sample0) = Ok chain0 ->
  coldest (lnprobability sample0) = Ok lnprobability0 ->
  coldest (acceptance_fraction sample0) = Ok fractions ->
  shape2 lnprobability0 = (s0, s1) ->
  1 <= nplanets args ->
  (forall i j, (i < s0)%nat -> (j < s1)%nat ->
     exists theta, row_at chain0 i j = Ok theta /\
       forall p, 0 <= p < nplanets args ->
                 prior_finite orbit theta (nplanets args) p = true) ->
  0 <= k < 1000 ->
  (forall i, 0 <= i < k -> os_path_isfile (fs w) (filename lib args i) = true) ->
  fs w !! filename lib args k = None ->
  write_output lib orbit args sample0 w =
    (SystemExit,
     mkWorld
       (<[filename lib args k :=
            FitsFile (output_hdus chain0 lnprobability0
                        (diagnostics_array orbit args chain0 s0 s1))]> (fs w))
       (trace w ++ [ev_print_total_time; ev_print_acceptance fractions]
                ++ diagnostics_calls chain0 s0 s1
                ++ [ev_print_writing (filename lib args k);
                    ev_writeto (filename lib args k)])).
Proof.
  intros Hchain Hlnp Hfrac Hshape HP Hsamples Hk Htaken Hfree.
  rewrite (write_output_diagnostics lib orbit args sample0 chain0 lnprobability0
             fractions s0 s1) by done.
  rewrite (write_loop_first_free lib args _ k) by done.
  cbn [fs trace]. f_equal. f_equal.
  rewrite <- !app_assoc. reflexivity.
Qed.

Lemma write_output_recomputes_diagnostics_witness :
  coldest (chain Demo.sample22) = Ok Demo.chain_cold /\
  fst (write_output Demo.lib Demo.orbit_mass Demo.args Demo.sample22 (Demo.taken 42)) =
    SystemExit /\
  trace (snd (write_output Demo.lib Demo.orbit_mass Demo.args Demo.sample22
                (Demo.taken 42))) =
    [ev_print_total_time; ev_print_acceptance [0.25; 0.5]%float;
     ev_lnprob [0.5; 1; 0.125; 10; 0.5; 0.5; 1; 1; 1]%float true;
     ev_lnprob [0.1; 1; 0.25; 11; 0.5; 0.5; 1; 1; 1]%float true;
     ev_lnprob [0.5; 2; 0.5; 12; 0.5; 0.5; 1; 1; 1]%float true;
     ev_lnprob [0.5; 3; 0.75; 13; 0.5; 0.5; 1; 1; 1]%float true;
     ev_print_writing "out/HIP3850_chain042.fits"; ev_writeto "out/HIP3850_chain042.fits"] /\
  fs (snd (write_output Demo.lib Demo.orbit_mass Demo.args Demo.sample22 (Demo.taken 42)))
    !! "out/HIP3850_chain042.fits" =
    Some (FitsFile
      [PrimaryHDU float32 (Array3 (mkArray3 (2%nat, 2%nat, 9%nat)
         [[[0.5; 1; 0.125; 10; 0.5; 0.5; 1; 1; 1]%float;
           [0.10000000149011612; 1; 0.25; 11; 0.5; 0.5; 1; 1; 1]%float];
          [[0.5; 2; 0.5; 12; 0.5; 0.5; 1; 1; 1]%float;
           [0.5; 3; 0.75; 13; 0.5; 0.5; 1; 1; 1]%float]]));
       PrimaryHDU float32 (Array2 (mkArray2 (2%nat, 2%nat)
         [[(-2.625)%float; (-0.10000000149011612)%float]; [(-3)%float; (-3.25)%float]]));
       PrimaryHDU float32 (Array3 (mkArray3 (2%nat, 2%nat, 8%nat)
         [[[0.125; 10; 3; 4; 5; 6; 7; 8]%float; [0.25; 11; 3; 4; 5; 6; 7; 8]%float];
          [[0.5; 12; 3; 4; 5; 6; 7; 8]%float; [0.75; 13; 3; 4; 5; 6; 7; 8]%float]]))]).
Proof.
  split; [reflexivity |].
  rewrite (write_output_recomputes_diagnostics Demo.lib Demo.orbit_mass Demo.args
             Demo.sample22 Demo.chain_cold Demo.lnprobability_cold [0.25; 0.5]%float 2 2
             (Demo.taken 42) 42).
  - split; [reflexivity |]. split; vm_compute; reflexivity.
  - reflexivity.
  - reflexivity.
  - reflexivity.
  - reflexivity.
  - simpl. lia.
  - intros i j Hi Hj.
    assert (i = 0 \/ i = 1)%nat as [-> | ->] by lia;
      (assert (j = 0 \/ j = 1)%nat as [-> | ->] by lia);
      (eexists; split; [reflexivity |]);
      intros p Hp; simpl in Hp; (assert (p = 0) as -> by lia); vm_compute; reflexivity.
  - lia.
  - apply taken_isfile.
  - vm_compute. reflexivity.
Defined.

(** C9: for a parameter vector one of whose planets has a non-finite prior,
    lnprob in diagnostics mode returns the float negative infinity and not
    a diagnostics record, the rejection being decided inside the planet
    loop, before the diagnostics branch; the serializer's reads of
    plx_best, pmra_best and the other fields of that result then fail, and
    no diagnostics row is produced. *)
Theorem rejected_sample_has_no_diagnostics orbit args theta p :
  0 <= p < nplanets args ->
  prior_finite orbit theta (nplanets args) p = false ->
  fst (lnprob orbit args theta true []) = Ok (PyFloat neg_infinity) /\
  parfit_row (PyFloat neg_infinity) = Raise (AttributeError "plx_best") /\
  forall sample0 chain0 i j parfit w,
    coldest (chain sample0) = Ok chain0 ->
    row_at chain0 i j = Ok theta ->
    parfit_step orbit args sample0 i j parfit w =
      (Raise (AttributeError "plx_best"),
       mkWorld (fs w) (trace w ++ [ev_lnprob theta true])).
Proof.
  intros Hp Hbad. split; [| split].
  - destruct (first_failure (prior_finite orbit theta (nplanets args)) p)
      as (k & Hk & Hkbad & Hbelow); [lia | done |].
    by rewrite (lnprob_rejected orbit args theta true [] k) by (done || lia).
  - apply parfit_row_float.
  - intros sample0 chain0 i j parfit w Hchain Hrow.
    by apply (parfit_step_rejected orbit args sample0 chain0 i j parfit w theta p).
Qed.

Lemma rejected_sample_has_no_diagnostics_witness :
  0 <= 1 < nplanets Demo.args2 /\
  prior_finite Demo.orbit Demo.theta2 (nplanets Demo.args2) 1 = false /\
  fst (lnprob Demo.orbit Demo.args2 Demo.theta2 true []) = Ok (PyFloat neg_infinity) /\
  parfit_row (PyFloat neg_infinity) = Raise (AttributeError "plx_best").
Proof.
  assert (prior_finite Demo.orbit Demo.theta2 (nplanets Demo.args2) 1 = false) as Hbad
    by (vm_compute; reflexivity).
  split; [simpl; lia |]. split; [exact Hbad |].
  destruct (rejected_sample_has_no_diagnostics Demo.orbit Demo.args2 Demo.theta2 1)
    as (Hres & Hrow & _); [simpl; lia | exact Hbad |].
  split; [exact Hres | exact Hrow].
Defined.

(** With a planet or more, [lnprob] returns a value. *)
Lemma lnprob_returns orbit args theta returninfo calls :
  1 <= nplanets args ->
  exists v, fst (lnprob orbit args theta returninfo calls) = Ok v.
Proof.
  intros HP.
  destruct (decide (Forall (fun i => prior_finite orbit theta (nplanets args) i = true)
                           (range (nplanets args)))) as [Hall | Hsome].
  - rewrite Forall_forall in Hall.
    rewrite lnprob_accepted; [| done | intros i Hi; by apply Hall, elem_of_range].
    destruct returninfo; eexists; reflexivity.
  - apply not_Forall_Exists in Hsome; [| intros i; apply _].
    apply Exists_exists in Hsome as (i & Hi & Hbad).
    apply elem_of_range in Hi. apply not_true_is_false in Hbad.
    destruct (first_failure (prior_finite orbit theta (nplanets args)) i)
      as (k & Hk & Hkbad & Hbelow); [lia | done |].
    rewrite (lnprob_rejected orbit args theta returninfo calls k) by (done || lia).
    eexists; reflexivity.
Qed.

(** C10: lnprob is defined only for a planet count of one or more: with no
    planet the loop over the planets does not run, the local params used by
    the prior and likelihood calls at the end is never assigned, and every
    call of lnprob fails with an unbound-name error instead of returning a
    value. *)
Theorem lnprob_without_planets_fails orbit args theta returninfo calls :
  nplanets args <= 0 ->
  lnprob orbit args theta returninfo calls =
    (Raise (UnboundLocalError "params"), calls ++ [call_Model; call_calc_PMs args]) /\
  forall v, fst (lnprob orbit args theta returninfo calls) <> Ok v.
Proof.
  intros HP.
  rewrite (lnprob_no_planets orbit args theta returninfo calls HP).
  split; [reflexivity | discriminate].
Qed.

Lemma lnprob_without_planets_fails_witness :
  nplanets Demo.args0 <= 0 /\
  lnprob Demo.orbit Demo.args0 Demo.theta1 false [] =
    (Raise (UnboundLocalError "params"), [call_Model; call_calc_PMs_no_epoch_astrometry]).
Proof.
  split; [simpl; lia |].
  destruct (lnprob_without_planets_fails Demo.orbit Demo.args0 Demo.theta1 false [])
    as [Hfails _]; [simpl; lia |].
  exact Hfails.
Defined.

(** * Further properties of the driver *)

(** ** The calls of an accepted evaluation *)

Lemma filter_accepted_calls (f : orbit_call -> bool) theta P (planets : list Z) :
  List.filter f (planets ≫= accepted_calls theta P) =
    planets ≫= fun i => List.filter f (accepted_calls theta P i).
Proof.
  induction planets as [| i planets IH]; [done |].
  cbn [mbind list_bind]. change (mbind ?g planets) with (planets ≫= g).
  by rewrite List.filter_app, IH.
Qed.

Lemma bind_nil_planets {B} (planets : list Z) : planets ≫= (fun _ : Z => @nil B) = [].
Proof. induction planets as [| i planets IH]; [done |]. cbn. exact IH. Qed.

Lemma length_bind_singleton {B} (planets : list Z) (g : Z -> B) :
  length (planets ≫= fun i => [g i]) = length planets.
Proof. induction planets as [| i planets IH]; [done |]. cbn. by f_equal. Qed.

(** X1: in an evaluation that is not rejected (one planet or more, every
    prior finite), in either mode, the proper-motion model is computed
    exactly once, in the variant selected by the epoch-astrometry flag; the
    orbital model is computed once per planet, in the order of the planets;
    and [model.free()] is never called. *)
Theorem accepted_evaluation_calls orbit args theta returninfo :
  1 <= nplanets args ->
  (forall i, 0 <= i < nplanets args ->
     prior_finite orbit theta (nplanets args) i = true) ->
  let calls := snd (lnprob orbit args theta returninfo []) in
  List.filter is_PM_call calls = [call_calc_PMs args] /\
  List.filter is_orbital_call calls =
    (range (nplanets args) ≫= orbital_calls theta (nplanets args)) /\
  List.filter is_free_call calls = [].
Proof.
  intros HP Hfin calls. subst calls.
  rewrite (lnprob_accepted orbit args theta returninfo [] HP Hfin).
  assert (is_PM_call (call_calc_PMs args) = true /\
          is_orbital_call (call_calc_PMs args) = false /\
          is_free_call (call_calc_PMs args) = false) as (HPM & Horb & Hfree)
    by (unfold call_calc_PMs; destruct (use_epoch_astrometry args); done).
  destruct returninfo;
    cbn [snd app List.filter is_PM_call is_orbital_call is_free_call];
    rewrite !List.filter_app, !filter_accepted_calls;
    cbn [List.filter is_PM_call is_orbital_call is_free_call accepted_calls];
    rewrite HPM, Horb, Hfree, !bind_nil_planets; cbn [app];
    (split; [done |]; split; [by rewrite app_nil_r | done]).
Qed.

Lemma accepted_evaluation_calls_witness :
  1 <= nplanets Demo.args /\
  List.filter is_PM_call (snd (lnprob Demo.orbit Demo.args Demo.theta1 false [])) =
    [call_calc_PMs_no_epoch_astrometry] /\
  List.filter is_free_call (snd (lnprob Demo.orbit Demo.args Demo.theta1 false [])) = [].
Proof.
  split; [simpl; lia |].
  destruct (accepted_evaluation_calls Demo.orbit Demo.args Demo.theta1 false)
    as (HPM & _ & Hfree).
  - simpl. lia.
  - intros i Hi. simpl in Hi. assert (i = 0) as -> by lia. vm_compute. reflexivity.
  - split; [exact HPM | exact Hfree].
Defined.

(** X2: in an evaluation that is not rejected, the prior is evaluated once
    per planet inside the loop; in scalar mode the prior of the last planet
    is evaluated a second time for the returned sum, in diagnostics mode it
    is not. *)
Theorem prior_evaluations orbit args theta returninfo :
  1 <= nplanets args ->
  (forall i, 0 <= i < nplanets args ->
     prior_finite orbit theta (nplanets args) i = true) ->
  length (List.filter is_lnprior_call (snd (lnprob orbit args theta returninfo []))) =
    if returninfo then Z.to_nat (nplanets args) else S (Z.to_nat (nplanets args)).
Proof.
  intros HP Hfin.
  rewrite (lnprob_accepted orbit args theta returninfo [] HP Hfin).
  assert (is_lnprior_call (call_calc_PMs args) = false) as HPM
    by (unfold call_calc_PMs; destruct (use_epoch_astrometry args); done).
  assert (length (range (nplanets args)) = Z.to_nat (nplanets args)) as Hlen
    by (unfold range; by rewrite length_fmap, length_seq).
  destruct returninfo;
    cbn [snd app List.filter is_lnprior_call];
    rewrite !List.filter_app, !filter_accepted_calls;
    cbn [List.filter is_lnprior_call accepted_calls];
    rewrite HPM, !length_app, length_bind_singleton, Hlen; cbn [length]; lia.
Qed.

Lemma prior_evaluations_witness :
  1 <= nplanets Demo.args /\
  length (List.filter is_lnprior_call
            (snd (lnprob Demo.orbit Demo.args Demo.theta1 false []))) = 2%nat /\
  length (List.filter is_lnprior_call
            (snd (lnprob Demo.orbit Demo.args Demo.theta1 true []))) = 1%nat.
Proof.
  assert (forall i, 0 <= i < nplanets Demo.args ->
            prior_finite Demo.orbit Demo.theta1 (nplanets Demo.args) i = true) as Hfin.
  { intros i Hi. simpl in Hi. assert (i = 0) as -> by lia. vm_compute. reflexivity. }
  split; [simpl; lia |]. split.
  - rewrite (prior_evaluations Demo.orbit Demo.args Demo.theta1 false);
      [reflexivity | simpl; lia | exact Hfin].
  - rewrite (prior_evaluations Demo.orbit Demo.args Demo.theta1 true);
      [reflexivity | simpl; lia | exact Hfin].
Defined.

(** X3: in diagnostics mode, with one planet or more and every prior
    finite, lnprob returns the record of calcL computed with the parameters
    of the last planet on the accumulated model; no prior enters the
    result. *)
Theorem lnprob_diagnostics_record orbit args theta calls :
  1 <= nplanets args ->
  (forall i, 0 <= i < nplanets args ->
     prior_finite orbit theta (nplanets args) i = true) ->
  fst (lnprob orbit args theta true calls) =
    Ok (PyInfo (calcL_chisq_resids orbit
                  (mkParams theta (nplanets args - 1) (nplanets args))
                  (accumulated_model orbit args theta))).
Proof.
  intros HP Hfin. by rewrite (lnprob_accepted orbit args theta true calls HP Hfin).
Qed.

Lemma lnprob_diagnostics_record_witness :
  1 <= nplanets Demo.args /\
  fst (lnprob Demo.orbit Demo.args Demo.theta1 true []) =
    Ok (PyInfo (mkInfo 1 2 3 4 5 6 7 8)).
Proof.
  split; [simpl; lia |].
  rewrite (lnprob_diagnostics_record Demo.orbit Demo.args Demo.theta1 []).
  - reflexivity.
  - simpl. lia.
  - intros i Hi. simpl in Hi. assert (i = 0) as -> by lia. vm_compute. reflexivity.
Defined.

(** X4: when some planet has a non-finite prior, the flag returninfo
    changes nothing: both modes make the same calls and return the same
    float. *)
Theorem rejection_ignores_returninfo orbit args theta p calls :
  0 <= p < nplanets args ->
  prior_finite orbit theta (nplanets args) p = false ->
  lnprob orbit args theta true calls = lnprob orbit args theta false calls.
Proof.
  intros Hp Hbad.
  destruct (first_failure (prior_finite orbit theta (nplanets args)) p)
    as (k & Hk & Hkbad & Hbelow); [lia | done |].
  rewrite (lnprob_rejected orbit args theta true calls k) by (done || lia).
  by rewrite (lnprob_rejected orbit args theta false calls k) by (done || lia).
Qed.

Lemma rejection_ignores_returninfo_witness :
  0 <= 1 < nplanets Demo.args2 /\
  prior_finite Demo.orbit Demo.theta2 (nplanets Demo.args2) 1 = false /\
  lnprob Demo.orbit Demo.args2 Demo.theta2 true [] =
    lnprob Demo.orbit Demo.args2 Demo.theta2 false [].
Proof.
  split; [simpl; lia |]. split; [vm_compute; reflexivity |].
  apply (rejection_ignores_returninfo Demo.orbit Demo.args2 Demo.theta2 1 []).
  - simpl. lia.
  - vm_compute. reflexivity.
Defined.

(** ** What the script does to the files *)

Lemma keeps_files_bind {A B} (m : Script A) (k : A -> Script B) :
  keeps_files m -> (forall a, keeps_files (k a)) -> keeps_files (m ≫= k).
Proof.
  intros Hm Hk w. unfold mbind, St_bind. specialize (Hm w).
  destruct (m w) as [[a | e |] w1]; cbn [snd] in *; [| done ..].
  by rewrite Hk.
Qed.

Lemma writes_one_bind {A B} (m : Script A) (k : A -> Script B) :
  keeps_files m -> (forall a, writes_at_most_one_file (k a)) ->
  writes_at_most_one_file (m ≫= k).
Proof.
  intros Hm Hk w. unfold mbind, St_bind. specialize (Hm w).
  destruct (m w) as [[a | e |] w1]; cbn [snd] in *; [| by left; done ..].
  rewrite <- Hm. apply Hk.
Qed.

Lemma keeps_files_emit e : keeps_files (emit e).
Proof. by intros w. Qed.

Lemma keeps_files_lift {A} (o : outcome A) : keeps_files (lift (S := world) o).
Proof. by intros w. Qed.

Lemma keeps_files_mret {A} (a : A) : keeps_files (mret a : Script A).
Proof. by intros w. Qed.

Lemma keeps_files_for_each {X A} (l : list X) (body : X -> A -> Script A) a :
  (forall x a, keeps_files (body x a)) -> keeps_files (for_each l body a).
Proof.
  intros Hbody. revert a. induction l as [| x l IH]; intros a; cbn [for_each].
  - apply keeps_files_mret.
  - apply keeps_files_bind; [apply Hbody | apply IH].
Qed.

Lemma keeps_files_parfit_step orbit args sample0 i j parfit :
  keeps_files (parfit_step orbit args sample0 i j parfit).
Proof.
  unfold parfit_step.
  repeat (apply keeps_files_bind; [first [apply keeps_files_lift | apply keeps_files_emit] |];
          intros ?).
  apply keeps_files_mret.
Qed.

Lemma keeps_files_initial_state lib args : keeps_files (initial_state lib args).
Proof.
  unfold initial_state. apply keeps_files_bind.
  - destruct (start_file args) as [path |]; [| apply keeps_files_lift].
    apply keeps_files_bind; [by intros w | intros data; apply keeps_files_lift].
  - intros par0.
    repeat (apply keeps_files_bind; [apply keeps_files_lift |]; intros ?).
    apply keeps_files_mret.
Qed.

Lemma keeps_files_run_sampler lib orbit args st : keeps_files (run_sampler lib orbit args st).
Proof.
  destruct st as [par0 [[nt nw] nd]]. unfold run_sampler.
  repeat (apply keeps_files_bind;
          [first [apply keeps_files_lift | apply keeps_files_emit] |]; intros ?).
  apply keeps_files_lift.
Qed.

Lemma write_steps_skip lib args out i (l : list Z) w :
  os_path_isfile (fs w) (filename lib args i) = true ->
  for_each (i :: l) (write_step lib args out) tt w =
    for_each l (write_step lib args out) tt w.
Proof.
  intros Hfile. cbn [for_each]. unfold mbind, St_bind.
  by rewrite write_step_taken.
Qed.

(** A candidate name that exists without being a file stops the loop with
    an error, after the message. *)
Lemma write_step_blocked lib args out i w :
  fs w !! filename lib args i = Some Directory ->
  write_step lib args out i tt w =
    (Raise (OSError (filename lib args i)),
     mkWorld (fs w) (trace w ++ [ev_print_writing (filename lib args i)])).
Proof.
  intros Hdir. unfold write_step, os_path_isfile. rewrite Hdir. cbn [negb].
  unfold mbind, St_bind, emit, writeto, lift. cbn [fs trace]. by rewrite Hdir.
Qed.

Lemma writes_one_write_steps lib args out (l : list Z) :
  writes_at_most_one_file (for_each l (write_step lib args out) tt).
Proof.
  intros w. induction l as [| i l IH]; [by left |].
  destruct (os_path_isfile (fs w) (filename lib args i)) eqn:Hfile.
  - by rewrite write_steps_skip.
  - cbn [for_each]. unfold mbind, St_bind, write_step. rewrite Hfile. cbn [negb].
    unfold mbind, St_bind, emit, writeto, lift. cbn [fs trace].
    destruct (fs w !! filename lib args i) eqn:Hname; cbn [snd fs]; [by left |].
    right. by exists (filename lib args i), out.
Qed.

Lemma writes_one_write_output lib orbit args sample0 :
  writes_at_most_one_file (write_output lib orbit args sample0).
Proof.
  unfold write_output.
  apply writes_one_bind; [apply keeps_files_emit | intros _].
  apply writes_one_bind; [apply keeps_files_lift | intros fractions].
  apply writes_one_bind; [apply keeps_files_emit | intros _].
  apply writes_one_bind; [apply keeps_files_lift | intros lnprobability0].
  apply writes_one_bind; [apply keeps_files_lift | intros parfit].
  apply writes_one_bind.
  { apply keeps_files_for_each. intros i a.
    apply keeps_files_for_each. intros j a'. apply keeps_files_parfit_step. }
  intros parfit'.
  apply writes_one_bind; [apply keeps_files_lift | intros chain0].
  apply writes_one_bind; [apply keeps_files_lift | intros lnprobability0'].
  apply writes_one_write_steps.
Qed.

(** X5: a candidate name that exists but is not a regular file (a
    directory), met before any free name, is not passed over: the script
    prints that it writes there, the write is refused with an OSError, and
    no later name is tried. *)
Theorem directory_blocks_output lib args out w k :
  0 <= k < 1000 ->
  (forall i, 0 <= i < k -> os_path_isfile (fs w) (filename lib args i) = true) ->
  fs w !! filename lib args k = Some Directory ->
  write_loop lib args out w =
    (Raise (OSError (filename lib args k)),
     mkWorld (fs w) (trace w ++ [ev_print_writing (filename lib args k)])).
Proof.
  intros Hk Htaken Hdir. unfold write_loop.
  destruct (range_split 1000 k Hk) as [rest ->].
  assert (Forall (fun i => os_path_isfile (fs w) (filename lib args i) = true) (range k))
    as Hall by (apply Forall_forall; intros i Hi; by apply Htaken, elem_of_range).
  induction Hall as [| i l Hi _ IH]; cbn [app].
  - cbn [for_each]. unfold mbind, St_bind. by rewrite write_step_blocked.
  - by rewrite write_steps_skip.
Qed.

Lemma directory_blocks_output_witness :
  fs (Demo.blocked 3) !! filename Demo.lib Demo.args 3 = Some Directory /\
  fs (Demo.blocked 3) !! filename Demo.lib Demo.args 4 = None /\
  write_loop Demo.lib Demo.args [] (Demo.blocked 3) =
    (Raise (OSError "out/HIP3850_chain003.fits"),
     mkWorld (fs (Demo.blocked 3)) [ev_print_writing "out/HIP3850_chain003.fits"]).
Proof.
  split; [vm_compute; reflexivity |]. split; [vm_compute; reflexivity |].
  rewrite (directory_blocks_output Demo.lib Demo.args [] (Demo.blocked 3) 3).
  - reflexivity.
  - lia.
  - intros i Hi.
    assert (i = 0 \/ i = 1 \/ i = 2) as [-> | [-> | ->]] by lia; vm_compute; reflexivity.
  - vm_compute. reflexivity.
Defined.

(** X6: whatever the command line, the libraries and the files are, a run
    of the script leaves every existing directory entry as it was (the
    checkpoint it resumes from included) and creates at most one file,
    under a name that did not exist. *)
Theorem script_writes_at_most_one_file lib orbit args w :
  adds_at_most_one_file (fs w) (fs (snd (main lib orbit args w))) /\
  forall path entry,
    fs w !! path = Some entry ->
    fs (snd (main lib orbit args w)) !! path = Some entry.
Proof.
  assert (adds_at_most_one_file (fs w) (fs (snd (main lib orbit args w)))) as Hadds.
  { unfold main.
    apply writes_one_bind; [apply keeps_files_initial_state | intros st].
    apply writes_one_bind; [apply keeps_files_run_sampler | intros sample0].
    apply writes_one_write_output. }
  split; [done |]. intros path entry Hentry.
  destruct Hadds as [-> | (name & out & Hfree & ->)]; [done |].
  rewrite lookup_insert_ne; [done | congruence].
Qed.

(** ** Loops that fail *)

Lemma for_each_returns_or_raises {X A} (l : list X) (body : X -> A -> Script A) e :
  (forall y a w, y ∈ l ->
     (exists a', fst (body y a w) = Ok a') \/ fst (body y a w) = Raise e) ->
  forall a w,
    (exists a', fst (for_each l body a w) = Ok a') \/ fst (for_each l body a w) = Raise e.
Proof.
  induction l as [| y l IH]; intros Hbody a w; [left; by exists a |].
  cbn [for_each]. unfold mbind, St_bind.
  destruct (Hbody y a w (list_elem_of_here _ _)) as [[a' Hy] | Hy];
    destruct (body y a w) as [[a1 | e1 |] w1]; cbn [fst] in Hy; try discriminate Hy.
  - apply IH. intros; apply Hbody. by apply list_elem_of_further.
  - right. cbn. congruence.
Qed.

Lemma for_each_raises {X A} (l : list X) (body : X -> A -> Script A) e x :
  x ∈ l ->
  (forall y a w, y ∈ l ->
     (exists a', fst (body y a w) = Ok a') \/ fst (body y a w) = Raise e) ->
  (forall a w, fst (body x a w) = Raise e) ->
  forall a w, fst (for_each l body a w) = Raise e.
Proof.
  induction l as [| y l IH]; intros Hx Hbody Hraise a w; [by apply elem_of_nil in Hx |].
  cbn [for_each]. unfold mbind, St_bind.
  destruct (Hbody y a w (list_elem_of_here _ _)) as [[a' Hy] | Hy];
    destruct (body y a w) as [[a1 | e1 |] w1] eqn:Hstep; cbn [fst] in Hy;
    try discriminate Hy.
  - apply elem_of_cons in Hx as [-> | Hx].
    + specialize (Hraise a w). rewrite Hstep in Hraise. discriminate Hraise.
    + apply IH; [done | | done]. intros; apply Hbody. by apply list_elem_of_further.
  - cbn. congruence.
Qed.

(** With a planet or more, the body of the diagnostics loops returns or
    fails on the first field it reads. *)
Lemma parfit_step_returns_or_raises orbit args sample0 chain0 i j parfit w :
  coldest (chain sample0) = Ok chain0 ->
  1 <= nplanets args ->
  (exists theta, row_at chain0 i j = Ok theta) ->
  (exists a', fst (parfit_step orbit args sample0 i j parfit w) = Ok a') \/
  fst (parfit_step orbit args sample0 i j parfit w) = Raise (AttributeError "plx_best").
Proof.
  intros Hchain HP [theta Hrow].
  unfold parfit_step, mbind, St_bind, lift, emit, mret, St_ret.
  rewrite Hchain, Hrow. cbn [fs trace].
  destruct (lnprob_returns orbit args theta true [] HP) as [v ->].
  destruct v as [x | res]; [right | left]; cbn; eauto.
Qed.

(** When the loops raise, so does the serializer, and no file is touched. *)
Lemma write_output_loops_raise lib orbit args sample0 lnprobability0 fractions
    (s0 s1 : nat) e w :
  coldest (lnprobability sample0) = Ok lnprobability0 ->
  coldest (acceptance_fraction sample0) = Ok fractions ->
  shape2 lnprobability0 = (s0, s1) ->
  (forall parfit w1,
     fst (for_each (seq 0 s0) (fun i parfit =>
            for_each (seq 0 s1) (fun j parfit =>
              parfit_step orbit args sample0 i j parfit) parfit) parfit w1) = Raise e) ->
  fst (write_output lib orbit args sample0 w) = Raise e /\
  fs (snd (write_output lib orbit args sample0 w)) = fs w.
Proof.
  intros Hlnp Hfrac Hshape Hloops.
  rewrite (write_output_prefix lib orbit args sample0 lnprobability0 fractions s0 s1 w)
    by done.
  unfold mbind, St_bind.
  match goal with
  | |- context [for_each (seq 0 s0) ?body ?a ?w1] =>
      pose proof (Hloops a w1) as Hraise;
      pose proof (keeps_files_for_each (seq 0 s0) body a
                    (fun i a' => keeps_files_for_each (seq 0 s1) _ a'
                       (fun j a'' => keeps_files_parfit_step orbit args sample0 i j a''))
                    w1) as Hkeep;
      destruct (for_each (seq 0 s0) body a w1) as [[a1 | e1 |] w2]
  end; cbn [fst snd fs] in *; try discriminate Hraise.
  injection Hraise as ->. by split.
Qed.

(** X7: when one stored sample of the cold chain has a planet with a
    non-finite prior, the serializer fails as a whole with the
    AttributeError of that sample (or of an earlier one): no output file is
    written, also not for the samples whose diagnostics were computed, and
    no existing file is touched. *)
Theorem rejected_sample_loses_output lib orbit args sample0 chain0 lnprobability0
    fractions (s0 s1 i0 j0 : nat) theta p w :
  coldest (chain sample0) = Ok chain0 ->
  coldest (lnprobability sample0) = Ok lnprobability0 ->
  coldest (acceptance_fraction sample0) = Ok fractions ->
  shape2 lnprobability0 = (s0, s1) ->
  (forall i j, (i < s0)%nat -> (j < s1)%nat -> exists th, row_at chain0 i j = Ok th) ->
  (i0 < s0)%nat -> (j0 < s1)%nat ->
  row_at chain0 i0 j0 = Ok theta ->
  0 <= p < nplanets args ->
  prior_finite orbit theta (nplanets args) p = false ->
  fst (write_output lib orbit args sample0 w) = Raise (AttributeError "plx_best") /\
  fs (snd (write_output lib orbit args sample0 w)) = fs w.
Proof.
  intros Hchain Hlnp Hfrac Hshape Hrows Hi0 Hj0 Hrow Hp Hbad.
  apply (write_output_loops_raise lib orbit args sample0 lnprobability0 fractions s0 s1);
    [done | done | done |].
  assert (forall i j a w1, i ∈ seq 0 s0 -> j ∈ seq 0 s1 ->
            (exists a', fst (parfit_step orbit args sample0 i j a w1) = Ok a') \/
            fst (parfit_step orbit args sample0 i j a w1) =
              Raise (AttributeError "plx_best")) as Hstep.
  { intros i j a w1 Hi Hj. apply elem_of_seq in Hi. apply elem_of_seq in Hj.
    apply (parfit_step_returns_or_raises orbit args sample0 chain0); [done | lia |].
    apply Hrows; lia. }
  apply (for_each_raises _ _ _ i0).
  - apply elem_of_seq. lia.
  - intros i a w1 Hi. apply for_each_returns_or_raises.
    intros j a' w2 Hj. by apply Hstep.
  - intros a w1. apply (for_each_raises _ _ _ j0).
    + apply elem_of_seq. lia.
    + intros j a' w2 Hj. apply Hstep; [apply elem_of_seq; lia | done].
    + intros a' w2.
      by rewrite (parfit_step_rejected orbit args sample0 chain0 i0 j0 a' w2 theta p).
Qed.

Lemma rejected_sample_loses_output_witness :
  row_at (mkArray3 (1%nat, 1%nat, 16%nat) [[Demo.theta2]]) 0 0 = Ok Demo.theta2 /\
  prior_finite Demo.orbit Demo.theta2 (nplanets Demo.args2) 1 = false /\
  fst (write_output Demo.lib Demo.orbit Demo.args2 Demo.sample2 (Demo.taken 3)) =
    Raise (AttributeError "plx_best") /\
  fs (snd (write_output Demo.lib Demo.orbit Demo.args2 Demo.sample2 (Demo.taken 3))) =
    fs (Demo.taken 3).
Proof.
  split; [reflexivity |]. split; [vm_compute; reflexivity |].
  apply (rejected_sample_loses_output Demo.lib Demo.orbit Demo.args2 Demo.sample2
           (mkArray3 (1%nat, 1%nat, 16%nat) [[Demo.theta2]])
           (mkArray2 (1%nat, 1%nat) [[neg_infinity]]) [0%float] 1 1 0 0 Demo.theta2 1).
  - reflexivity.
  - reflexivity.
  - reflexivity.
  - reflexivity.
  - intros i j Hi Hj. assert (i = 0%nat) as -> by lia. assert (j = 0%nat) as -> by lia.
    by exists Demo.theta2.
  - lia.
  - lia.
  - reflexivity.
  - simpl. lia.
  - vm_compute. reflexivity.
Defined.



(** ** The candidate names *)

Lemma NoDup_fmap_elem {A B} (f : A -> B) (l : list A) x y :
  NoDup (f <$> l) -> x ∈ l -> y ∈ l -> f x = f y -> x = y.
Proof.
  induction l as [| a l IH]; intros Hnodup Hx Hy Hfxy; [by apply elem_of_nil in Hx |].
  rewrite fmap_cons in Hnodup. apply NoDup_cons in Hnodup as [Hnotin Hnodup].
  apply elem_of_cons in Hx as [-> | Hx]; apply elem_of_cons in Hy as [-> | Hy].
  - done.
  - exfalso. apply Hnotin. rewrite Hfxy. by apply list_elem_of_fmap_2.
  - exfalso. apply Hnotin. rewrite <- Hfxy. by apply list_elem_of_fmap_2.
  - by apply IH.
Qed.

(** The thousand suffixes are pairwise distinct. *)
Lemma suffixes_distinct : NoDup ((fun i => fmt_03d i +:+ ".fits") <$> range 1000).
Proof. apply (bool_decide_unpack _). vm_compute. exact I. Qed.

(** Joining a directory with names that do not start with a slash keeps
    the names apart. *)
Lemma os_path_join_inj (a s s' : string) :
  os_path_join a (String "H" s) = os_path_join a (String "H" s') -> s = s'.
Proof.
  unfold os_path_join.
  destruct (decide (a = "")) as [-> | Ha]; [by intros [= ->] |].
  destruct (last (String.list_ascii_of_string a)) as [c |].
  - destruct (decide (c = "/"%char)) as [-> | Hc].
    + intros H. by apply String.app_inj in H as [= ->].
    + assert (forall b : string,
                match c with
                | "/"%char => a +:+ b
                | _ => a +:+ "/" +:+ b
                end = a +:+ "/" +:+ b) as Hmatch.
      { intros b. destruct c as [[] [] [] [] [] [] [] []]; try reflexivity.
        by destruct Hc. }
      rewrite !Hmatch. intros H.
      apply String.app_inj in H. by apply String.app_inj in H as [= ->].
  - intros H. apply String.app_inj in H. by apply String.app_inj in H as [= ->].
Qed.

(** X9: for any output directory and any star identifier, the thousand
    candidate file names (indices 0 to 999) are pairwise distinct. *)
Theorem candidate_names_distinct lib args i j :
  0 <= i < 1000 -> 0 <= j < 1000 -> i <> j ->
  filename lib args i <> filename lib args j.
Proof.
  intros Hi Hj Hij. unfold filename.
  change ("HIP" +:+ ?s) with (String "H" ("IP" +:+ s)).
  intros Hname. apply Hij. apply os_path_join_inj in Hname.
  apply (String.app_inj "IP") in Hname.
  apply String.app_inj in Hname. apply (String.app_inj "_chain") in Hname.
  apply (NoDup_fmap_elem (fun i => fmt_03d i +:+ ".fits") (range 1000));
    [apply suffixes_distinct | by apply elem_of_range .. | done].
Qed.

Lemma candidate_names_distinct_witness :
  filename Demo.lib Demo.args 7 = "out/HIP3850_chain007.fits" /\
  filename Demo.lib Demo.args 70 = "out/HIP3850_chain070.fits" /\
  filename Demo.lib Demo.args 7 <> filename Demo.lib Demo.args 70.
Proof.
  split; [vm_compute; reflexivity |]. split; [vm_compute; reflexivity |].
  apply (candidate_names_distinct Demo.lib Demo.args 7 70); lia.
Defined.

(** ** Starting positions that cannot be read *)

Lemma par0_resume_few_columns args dt a :
  ((shape3 a).2 < 11)%nat -> par0_resume args dt (Array3 a) = Raise IndexError.
Proof.
  destruct a as [[[T W] D] data]. cbn [shape3 snd]. intros HD.
  unfold par0_resume, assign_column. cbn [shape3 data3].
  destruct (9 <? D)%nat eqn:H9; [| reflexivity].
  apply Nat.ltb_lt in H9. assert (D = 10%nat) as -> by lia. reflexivity.
Qed.

(** X10: when the start file is missing or is not a FITS file (OSError),
    has no array, has an array of two axes or one of fewer than eleven
    columns (IndexError), the script stops with that error before anything
    else happens: no data is loaded, no sampler is built and no file is
    written. *)
Theorem unusable_checkpoint_stops_run lib orbit args w path e :
  start_file args = Some path ->
  checkpoint_error path (fs w !! path) = Some e ->
  main lib orbit args w = (Raise e, w).
Proof.
  intros Hstart Herr.
  unfold main, initial_state. rewrite Hstart.
  unfold mbind, St_bind, fits_open_data, lift.
  unfold checkpoint_error in Herr.
  destruct (fs w !! path) as [[[| [dt data] hdus] | bytes |] |];
    cbn [hdu_dtype hdu_data fst snd] in *; try (by injection Herr as <-).
  destruct data as [a | a]; [by injection Herr as <- |].
  destruct (11 <=? (shape3 a).2)%nat eqn:HD; [discriminate Herr |].
  injection Herr as <-. apply Nat.leb_gt in HD.
  by rewrite par0_resume_few_columns.
Qed.

Lemma unusable_checkpoint_stops_run_witness :
  start_file Demo.args_missing = Some "missing.fits" /\
  fs Demo.world_resume !! "missing.fits" = None /\
  main Demo.lib Demo.orbit Demo.args_missing Demo.world_resume =
    (Raise (OSError "missing.fits"), Demo.world_resume).
Proof.
  split; [reflexivity |]. split; [reflexivity |].
  apply (unusable_checkpoint_stops_run Demo.lib Demo.orbit Demo.args_missing
           Demo.world_resume "missing.fits"); reflexivity.
Defined.

(** ** Starting positions of any width *)

Lemma slice_stop_kept (ntemps : Z) (T : nat) :
  slice_stop ntemps T = kept_temperatures ntemps T.
Proof. unfold slice_stop, kept_temperatures. destruct (ntemps <? 0) eqn:E; lia. Qed.

Lemma slice_stop_last_two (D : nat) : slice_stop (-2) D = (D - 2)%nat.
Proof. unfold slice_stop. cbn [Z.ltb Z.compare]. lia. Qed.

Lemma wf_data_rows (T W D : nat) (f : list float -> list float) data :
  (forall row, length row = D -> length (f row) = D) ->
  wf_data T W D data -> wf_data T W D (map (map f) data).
Proof.
  intros Hf [Hlen Hplanes]. split; [by rewrite length_map |].
  apply Forall_fmap. eapply Forall_impl; [exact Hplanes |].
  intros plane [Hp Hrows]. cbn. split; [by rewrite length_map |].
  apply Forall_fmap. eapply Forall_impl; [exact Hrows |].
  intros row Hrow. cbn. by apply Hf.
Qed.

Lemma wf_data_sliced (T W D c0 : nat) data :
  (c0 <= T)%nat ->
  wf_data T W D data ->
  wf_data c0 W (D - 2) (map (map (take (D - 2))) (take c0 data)).
Proof.
  intros Hc [Hlen Hplanes].
  split; [rewrite length_map, length_take; lia |].
  apply Forall_fmap, Forall_take.
  eapply Forall_impl; [exact Hplanes |].
  intros plane [Hp Hrows]. cbn. split; [by rewrite length_map |].
  apply Forall_fmap.
  eapply Forall_impl; [exact Hrows |].
  intros row Hrow. change (length (take (D - 2) row) = (D - 2)%nat).
  cbn beta in Hrow. rewrite length_take. lia.
Qed.

Lemma kept_temperatures_le (ntemps : Z) (T : nat) : (kept_temperatures ntemps T <= T)%nat.
Proof. unfold kept_temperatures. destruct (ntemps <? 0); lia. Qed.

(** X11: resuming from an array of shape (T, W, D) with eleven columns or
    more always gives D - 2 parameters, whatever planet count is
    configured; a negative number of temperatures drops that many
    temperatures from the end instead of keeping the first ones; and the
    run goes on exactly when a temperature and a walker are left, being
    stopped by an IndexError otherwise. *)
Theorem resume_shape_in_general lib args w path dt ckpt hdus (T W D : nat) :
  start_file args = Some path ->
  fs w !! path = Some (FitsFile (PrimaryHDU dt (Array3 ckpt) :: hdus)) ->
  shape3 ckpt = (T, W, D) -> wf_array3 ckpt -> (11 <= D)%nat ->
  let kept := kept_temperatures (ntemps args) T in
  exists par0,
    par0_resume args dt (Array3 ckpt) = Ok par0 /\
    shape3 par0 = (kept, W, (D - 2)%nat) /\
    wf_array3 par0 /\
    initial_state lib args w =
      (if (0 <? kept)%nat && (0 <? W)%nat
       then Ok (par0, (kept, W, (D - 2)%nat)) else Raise IndexError, w).
Proof.
  intros Hstart Hfile Hshape Hwf HD kept.
  destruct ckpt as [shape data]. unfold wf_array3 in Hwf.
  cbn [shape3 data3] in *. subst shape.
  assert ((9 <? D)%nat = true /\ (8 <? D)%nat = true /\ (10 <? D)%nat = true /\
          (0 <? D)%nat = true /\ (0 <? D - 2)%nat = true) as (H9 & H8 & H10 & H0 & H2)
    by (repeat split; apply Nat.ltb_lt; lia).
  eexists. split; [| split; [| split]].
  - unfold par0_resume, assign_column, idiv_column, slice3.
    cbn [shape3 data3 mbind outcome_bind].
    do 3 (rewrite ?H9, ?H8, ?H10, ?H0;
          cbn [andb mbind outcome_bind shape3 data3 mret outcome_ret]).
    rewrite slice_stop_kept, slice_stop_last_two. reflexivity.
  - reflexivity.
  - unfold wf_array3. cbn [shape3 data3].
    apply (wf_data_sliced T); [apply kept_temperatures_le |].
    repeat (apply wf_data_rows;
            [intros row Hrow; repeat case_match; by rewrite ?length_insert |]).
    done.
  - unfold initial_state. rewrite Hstart.
    unfold mbind at 1. unfold St_bind at 1.
    unfold mbind at 1. unfold St_bind at 1.
    unfold fits_open_data. rewrite Hfile. cbn [hdu_dtype hdu_data fst snd].
    unfold lift at 1.
    unfold par0_resume, assign_column, idiv_column, slice3.
    cbn [shape3 data3 mbind outcome_bind].
    do 3 (rewrite ?H9, ?H8, ?H10, ?H0;
          cbn [andb mbind outcome_bind shape3 data3 mret outcome_ret]).
    rewrite slice_stop_kept, slice_stop_last_two. fold kept.
    unfold mbind, St_bind, lift, mret, St_ret, size_axis0, size_axis1, size_axis2.
    cbn [shape3]. rewrite H2.
    destruct (0 <? kept)%nat, (0 <? W)%nat; reflexivity.
Qed.

Lemma resume_shape_in_general_witness :
  shape3 Demo.checkpoint12 = (5%nat, 2%nat, 12%nat) /\
  ntemps Demo.args_drop2 = -2 /\
  nplanets Demo.args_drop2 = 1 /\
  exists par0,
    fst (initial_state Demo.lib Demo.args_drop2 Demo.world_resume12) =
      Ok (par0, (3%nat, 2%nat, 10%nat)).
Proof.
  split; [reflexivity |]. split; [reflexivity |]. split; [reflexivity |].
  destruct (resume_shape_in_general Demo.lib Demo.args_drop2 Demo.world_resume12
              "start.fits" float64 Demo.checkpoint12 [] 5 2 12)
    as (par0 & _ & _ & _ & Hinit).
  - reflexivity.
  - reflexivity.
  - reflexivity.
  - split; [reflexivity |]. apply Forall_replicate. split; [reflexivity |].
    apply Forall_replicate. reflexivity.
  - lia.
  - exists par0. rewrite Hinit. reflexivity.
Defined.

(** ** A fresh start that cannot be made *)

(** X12: on a fresh start a negative number of temperatures or of planets
    is refused by [np.ones] with a ValueError, and zero temperatures give an
    array from which the number of walkers cannot be read (IndexError); in
    both cases nothing else has happened. *)
Theorem fresh_start_refuses_bad_counts lib args w :
  start_file args = None ->
  (ntemps args < 0 \/ nplanets args < 0 ->
   initial_state lib args w = (Raise ValueError, w)) /\
  (ntemps args = 0 -> 0 <= nplanets args ->
   (forall n, length (np_random_rand lib n) = n) ->
   initial_state lib args w = (Raise IndexError, w)).
Proof.
  intros Hstart. split.
  - intros Hneg. unfold initial_state. rewrite Hstart.
    unfold mbind, St_bind, lift, par0_fresh, np_ones, np_full.
    assert ((ntemps args <? 0) || (100 <? 0) || (2 + 7 * nplanets args <? 0) = true)
      as -> by lia.
    reflexivity.
  - intros Ht HP Hrand.
    destruct (par0_fresh_ok lib args) as (par0 & Hpar0 & Hshape & _); [lia | done | done |].
    unfold initial_state. rewrite Hstart.
    unfold mbind, St_bind, lift. rewrite Hpar0.
    unfold size_axis0, size_axis1, size_axis2. rewrite Hshape, Ht.
    replace (0 <? Z.to_nat (2 + 7 * nplanets args))%nat with true
      by (symmetry; apply Nat.ltb_lt; lia).
    reflexivity.
Qed.

Lemma fresh_start_refuses_bad_counts_witness :
  initial_state Demo.lib (mkArgs 2000 2 false "out" 5 100 (-1) None) (Demo.taken 0) =
    (Raise ValueError, Demo.taken 0) /\
  initial_state Demo.lib (mkArgs 2000 2 false "out" 0 100 1 None) (Demo.taken 0) =
    (Raise IndexError, Demo.taken 0).
Proof.
  split.
  - apply (fresh_start_refuses_bad_counts Demo.lib
             (mkArgs 2000 2 false "out" 5 100 (-1) None) (Demo.taken 0)).
    + reflexivity.
    + right. simpl. lia.
  - apply (fresh_start_refuses_bad_counts Demo.lib
             (mkArgs 2000 2 false "out" 0 100 1 None) (Demo.taken 0)).
    + reflexivity.
    + reflexivity.
    + simpl. lia.
    + intros n. apply length_replicate.
Defined.

(** ** The positions of a fresh start *)

Lemma lookup_chunks {A} (n k : nat) (l : list A) (i : nat) :
  (i < k)%nat -> chunks n k l !! i = Some (take n (drop (i * n) l)).
Proof.
  revert l i. induction k as [| k IH]; intros l i Hi; [lia |].
  destruct i as [| i]; cbn [chunks]; [done |].
  rewrite lookup_cons. rewrite IH by lia. rewrite drop_drop.
  replace (n + i * n)%nat with (S i * n)%nat by lia. reflexivity.
Qed.

(** Entry [(k, j, c)] of a reshaped list is entry [(k * d1 + j) * d2 + c]
    of the list: the order of C. *)
Lemma lookup_reshape {A} (l : list A) (d0 d1 d2 k j c : nat) :
  (k < d0)%nat -> (j < d1)%nat -> (c < d2)%nat ->
  entry_at (chunks d1 d0 (chunks d2 (d0 * d1) l)) k j c =
    l !! ((k * d1 + j) * d2 + c)%nat.
Proof.
  intros Hk Hj Hc. unfold entry_at.
  rewrite lookup_chunks by done.
  rewrite lookup_take_lt, lookup_drop by done.
  rewrite lookup_chunks by nia.
  by rewrite lookup_take_lt, lookup_drop by done.
Qed.

(** What the fresh start computes, when it succeeds. *)
Lemma par0_fresh_data lib args par0 :
  par0_fresh lib args = Ok par0 ->
  let T := Z.to_nat (ntemps args) in
  let D := Z.to_nat (2 + 7 * nplanets args) in
  let u := np_random_rand lib (T * 100 * D)%nat in
  length (init_guess (nplanets args)) = D /\
  length u = (T * 100 * D)%nat /\
  data3 par0 =
    zip_with (zip_with (zip_with PrimFloat.mul))
      (map (map (fun row => zip_with PrimFloat.mul row (init_guess (nplanets args))))
           (replicate T (replicate 100 (replicate D 1%float))))
      (map (map (map (fun x => np_power lib 2%float (x - 0.5)%float)))
           (chunks 100 T (chunks D (T * 100) u))).
Proof.
  unfold par0_fresh, np_ones, np_full.
  destruct (ntemps args <? 0) eqn:Ht; [discriminate |].
  destruct (2 + 7 * nplanets args <? 0) eqn:HP; [discriminate |].
  cbn [orb Z.ltb Z.compare mbind outcome_bind].
  unfold imul_broadcast. cbn [shape3 data3].
  assert (length (init_guess (nplanets args)) = Z.to_nat (2 + 7 * nplanets args))
    as Hinit by (apply length_init_guess; lia).
  rewrite decide_True by done.
  cbn [mbind outcome_bind shape3 data3]. unfold reshape3.
  case_decide as Hlen; [| discriminate].
  cbn [mbind outcome_bind]. unfold imul3, map3. cbn [shape3 data3].
  case_decide; [| discriminate].
  intros [= <-]. cbn [data3]. by repeat split.
Qed.

Lemma entry_at_zip_with {A} (f : A -> A -> A) (a b : list (list (list A))) (k j c : nat) :
  entry_at (zip_with (zip_with (zip_with f)) a b) k j c =
    match entry_at a k j c, entry_at b k j c with
    | Some x, Some y => Some (f x y)
    | _, _ => None
    end.
Proof.
  unfold entry_at. rewrite lookup_zip_with.
  destruct (a !! k) as [pa |], (b !! k) as [pb |]; cbn; try done.
  - rewrite lookup_zip_with.
    destruct (pa !! j) as [ra |], (pb !! j) as [rb |]; cbn; try done.
    + rewrite lookup_zip_with.
      by destruct (ra !! c), (rb !! c).
    + by destruct (ra !! c).
  - destruct (pa !! j) as [ra |]; [| done]. by destruct (ra !! c).
Qed.

Lemma entry_at_map {A} (f : A -> A) (a : list (list (list A))) (k j c : nat) :
  entry_at (map (map (map f)) a) k j c = f <$> entry_at a k j c.
Proof.
  unfold entry_at. change (map ?g ?l) with (g <$> l). rewrite list_lookup_fmap.
  destruct (a !! k) as [pa |]; cbn; [| done].
  change (map ?g ?l) with (g <$> l). rewrite list_lookup_fmap.
  destruct (pa !! j) as [ra |]; cbn; [| done].
  change (map ?g ?l) with (g <$> l). by rewrite list_lookup_fmap.
Qed.

Lemma entry_at_broadcast (v : list float) (x : float) (d0 d1 d2 k j c : nat) :
  (k < d0)%nat -> (j < d1)%nat -> (c < d2)%nat ->
  entry_at (map (map (fun row => zip_with PrimFloat.mul row v))
                (replicate d0 (replicate d1 (replicate d2 x)))) k j c =
    (fun seed => (x * seed)%float) <$> v !! c.
Proof.
  intros Hk Hj Hc. unfold entry_at.
  change (map ?g ?l) with (g <$> l). rewrite list_lookup_fmap.
  rewrite lookup_replicate_2 by done. cbn.
  change (map ?g ?l) with (g <$> l). rewrite list_lookup_fmap.
  rewrite lookup_replicate_2 by done. cbn.
  rewrite lookup_zip_with, lookup_replicate_2 by done. cbn.
  by destruct (v !! c).
Qed.

(** X13: on a fresh start, the position of walker j at temperature k in
    parameter c is the seed value of that parameter (times one) times two
    to the power u - 0.5, where u is the random number at place
    (k * 100 + j) * ndim + c of the one sequence drawn: the walkers are
    filled in C order, temperature by temperature. *)
Theorem fresh_start_positions lib args par0 (k j c : nat) :
  par0_fresh lib args = Ok par0 ->
  (k < Z.to_nat (ntemps args))%nat -> (j < 100)%nat ->
  (c < Z.to_nat (2 + 7 * nplanets args))%nat ->
  let T := Z.to_nat (ntemps args) in
  let D := Z.to_nat (2 + 7 * nplanets args) in
  exists seed u,
    init_guess (nplanets args) !! c = Some seed /\
    np_random_rand lib (T * 100 * D)%nat !! ((k * 100 + j) * D + c)%nat = Some u /\
    entry_at (data3 par0) k j c =
      Some (1 * seed * np_power lib 2%float (u - 0.5))%float.
Proof.
  intros Hpar0 Hk Hj Hc T D.
  destruct (par0_fresh_data lib args par0 Hpar0) as (Hinit & Hu & ->).
  fold T D in Hinit, Hu |- *.
  destruct (lookup_lt_is_Some_2 (init_guess (nplanets args)) c) as [seed Hseed]; [lia |].
  destruct (lookup_lt_is_Some_2 (np_random_rand lib (T * 100 * D)%nat)
              ((k * 100 + j) * D + c)%nat) as [u Hlook]; [nia |].
  exists seed, u. split; [done |]. split; [done |].
  rewrite entry_at_zip_with, entry_at_map, entry_at_broadcast by done.
  rewrite lookup_reshape by done.
  by rewrite Hseed, Hlook.
Qed.

Lemma fresh_start_positions_witness :
  exists par0,
    par0_fresh Demo.lib Demo.args = Ok par0 /\
    entry_at (data3 par0) 4 99 3 = Some 10%float.
Proof.
  destruct (par0_fresh_ok Demo.lib Demo.args) as (par0 & Hpar0 & _);
    [simpl; lia | simpl; lia | intros n; apply length_replicate |].
  exists par0. split; [exact Hpar0 |].
  destruct (fresh_start_positions Demo.lib Demo.args par0 4 99 3 Hpar0)
    as (seed & u & Hseed & Hu & ->); [simpl; lia | lia | simpl; lia |].
  vm_compute in Hseed. injection Hseed as <-.
  cbn [Demo.lib np_random_rand] in Hu.
  apply lookup_replicate in Hu as [-> _].
  vm_compute. reflexivity.
Defined.

(** X14: the seed is the jitter and the primary mass followed by the same
    seven orbital elements for every planet: all planets start from one
    orbit.  Without planets it is the two shared values alone. *)
Theorem init_guess_repeats_planet (P : Z) :
  init_guess P =
    [jit; mpri] ++ concat (replicate (Z.to_nat P) [msec; sau; esino; ecoso; inc; asc; lam]).
Proof.
  unfold init_guess.
  assert (forall (xs : list Z) acc,
            foldl (fun init _ => init ++ [msec; sau; esino; ecoso; inc; asc; lam]) acc xs =
              acc ++ concat (replicate (length xs) [msec; sau; esino; ecoso; inc; asc; lam]))
    as Hfold.
  { induction xs as [| x xs IH]; intros acc; cbn [foldl length replicate concat].
    - by rewrite app_nil_r.
    - by rewrite IH, <- app_assoc. }
  rewrite Hfold. unfold range. by rewrite length_fmap, length_seq.
Qed.

(** ** A complete run *)

(** Building the initial state reads the start file and does nothing
    else. *)
Lemma initial_state_world lib args w : snd (initial_state lib args w) = w.
Proof.
  unfold initial_state, mbind, St_bind, lift, fits_open_data, mret, St_ret.
  repeat case_match; simplify_eq; done.
Qed.

(** X15: a run in which the initial state is built, the data are loaded,
    the sampler is constructed and returns from its run, every sample of the
    cold chain has finite priors and candidate name k is the first free one
    goes through these steps and no others: the data are loaded, the
    sampler is built with the sizes of the initial state and run on it for
    nstep steps with thinning 50, the time and the acceptance are printed,
    lnprob is called once in diagnostics mode per stored sample, the chosen
    name is printed, the file is written and the script exits. *)
Theorem complete_run lib orbit args w st sampler sample0 chain0 lnprobability0 fractions
    (s0 s1 : nat) k :
  fst (initial_state lib args w) = Ok st ->
  load_data lib (use_epoch_astrometry args) = Ok tt ->
  emcee_PTSampler lib st.2.1.1 st.2.1.2 st.2.2 (logl orbit args) return_one
                  (nthreads args) = Ok sampler ->
  emcee_run_mcmc lib sampler st.1 (nstep args) 50 = Ok sample0 ->
  coldest (chain sample0) = Ok chain0 ->
  coldest (lnprobability sample0) = Ok lnprobability0 ->
  coldest (acceptance_fraction sample0) = Ok fractions ->
  shape2 lnprobability0 = (s0, s1) ->
  1 <= nplanets args ->
  (forall i j, (i < s0)%nat -> (j < s1)%nat ->
     exists theta, row_at chain0 i j = Ok theta /\
       forall p, 0 <= p < nplanets args ->
                 prior_finite orbit theta (nplanets args) p = true) ->
  0 <= k < 1000 ->
  (forall i, 0 <= i < k -> os_path_isfile (fs w) (filename lib args i) = true) ->
  fs w !! filename lib args k = None ->
  main lib orbit args w =
    (SystemExit,
     mkWorld
       (<[filename lib args k :=
            FitsFile (output_hdus chain0 lnprobability0
                        (diagnostics_array orbit args chain0 s0 s1))]> (fs w))
       (trace w ++ [ev_load_data (use_epoch_astrometry args);
                    ev_PTSampler st.2.1.1 st.2.1.2 st.2.2 (nthreads args);
                    ev_run_mcmc st.1 (nstep args) 50;
                    ev_print_total_time; ev_print_acceptance fractions]
                ++ diagnostics_calls chain0 s0 s1
                ++ [ev_print_writing (filename lib args k);
                    ev_writeto (filename lib args k)])).
Proof.
  intros Hinit Hload Hsampler Hrun Hchain Hlnp Hfrac Hshape HP Hsamples Hk Htaken Hfree.
  pose proof (initial_state_world lib args w) as Hworld.
  unfold main. unfold mbind at 1. unfold St_bind at 1.
  destruct (initial_state lib args w) as [o w'] eqn:Hstate.
  cbn [fst snd] in Hinit, Hworld. subst o w'.
  unfold mbind at 1. unfold St_bind at 1.
  rewrite (run_sampler_events lib orbit args st sampler) by done. rewrite Hrun.
  rewrite (write_output_diagnostics lib orbit args sample0 chain0 lnprobability0
             fractions s0 s1) by done.
  cbn [fs trace].
  rewrite (write_loop_first_free lib args _ k) by done.
  cbn [fs trace]. f_equal. f_equal. rewrite <- !app_assoc. reflexivity.
Qed.

Lemma complete_run_witness :
  fst (initial_state Demo.lib Demo.args_resume Demo.world_bound) =
    Ok (Demo.par0_bound, (1%nat, 18%nat, 9%nat)) /\
  fst (main Demo.lib Demo.orbit Demo.args_resume Demo.world_bound) = SystemExit /\
  trace (snd (main Demo.lib Demo.orbit Demo.args_resume Demo.world_bound)) =
    [ev_load_data false; ev_PTSampler 1 18 9 2; ev_run_mcmc Demo.par0_bound 2000 50;
     ev_print_total_time; ev_print_acceptance (replicate 18 0%float)]
    ++ replicate 18 (ev_lnprob [0.5; 1; 0.125; 10; 0.5; 0.5; 1; 1; 1]%float true)
    ++ [ev_print_writing "out/HIP3850_chain000.fits";
        ev_writeto "out/HIP3850_chain000.fits"].
Proof.
  assert (fst (initial_state Demo.lib Demo.args_resume Demo.world_bound) =
            Ok (Demo.par0_bound, (1%nat, 18%nat, 9%nat))) as Hinit
    by (vm_compute; reflexivity).
  split; [exact Hinit |].
  rewrite (complete_run Demo.lib Demo.orbit Demo.args_resume Demo.world_bound
             (Demo.par0_bound, (1%nat, 18%nat, 9%nat))
             (Demo.mkSampler 1 18 9 (logl Demo.orbit Demo.args_resume) return_one)
             Demo.sample_bound Demo.chain_bound Demo.lnprobability_bound
             (replicate 18 0%float) 18 1 0).
  - split; [reflexivity | vm_compute; reflexivity].
  - exact Hinit.
  - reflexivity.
  - reflexivity.
  - vm_compute. reflexivity.
  - reflexivity.
  - reflexivity.
  - reflexivity.
  - reflexivity.
  - simpl. lia.
  - intros i j Hi Hj. assert (j = 0%nat) as -> by lia.
    exists Demo.theta1. split.
    + unfold row_at, Demo.chain_bound. cbn [data3].
      by rewrite lookup_replicate_2.
    + intros p Hp. simpl in Hp. assert (p = 0) as -> by lia. vm_compute. reflexivity.
  - lia.
  - intros i Hi. lia.
  - vm_compute. reflexivity.
Defined.
